(** * Name Request notification e-mails: a shallow embedding of
      [entity_emailer/email_processors/nr_notification.py]

    The module builds the e-mail for a Name Request (NR) notification:
    it reads a template file, asks the NameX registry for the name
    request, derives six template variables, renders the template with
    Jinja2 and packages the result.

    Python values are modelled by [value] (JSON-shaped data), raised
    exceptions by [exn], and the calls to the collaborators that live
    outside the module (configuration, file system, NameX, the shared
    template helper, the legislation date helpers, Jinja2) by the fields
    of a [World].  [process] runs in a small monad that threads the
    trace of observable calls and stops at the first raised exception.

    Limits of the model: Python [str] is a Rocq [string] read as ASCII
    ([upper] maps a-z only); JSON numbers are integers; the [option]
    argument is a [str], as the docstring of [process] and its use
    of [option.upper()] have it.  A mapping is an association list
    read from the left, so that [value] stays a plain nested
    inductive type. *)

From Stdlib Require Import String Ascii List ZArith Bool Lia DecimalString.
Import ListNotations.
Local Open Scope string_scope.
Local Open Scope Z_scope.

Local Set Warnings "-register-all".

(** ** Python values and exceptions *)

Inductive value : Type :=
| VNone
| VBool (b : bool)
| VInt (z : Z)
| VStr (s : string)
| VList (items : list value)
| VDict (entries : list (string * value)).

(** The empty mapping [{}]. *)
Definition empty_dict : value := VDict [].

Inductive exn : Type :=
| KeyError (key : value)
| TypeError
| AttributeError
| ValueError
| FileNotFoundError (path : string)
| OtherError (name : string).

Inductive result (A : Type) : Type :=
| Ok (a : A)
| Raise (e : exn).
Arguments Ok {A} a.
Arguments Raise {A} e.

Definition is_raise {A} (r : result A) : bool :=
  match r with Ok _ => false | Raise _ => true end.

(** ** Dictionaries, subscripts, truth values *)

Fixpoint lookup {A} (k : string) (d : list (string * A)) : option A :=
  match d with
  | [] => None
  | (k', v) :: rest => if String.eqb k k' then Some v else lookup k rest
  end.

(** [v[k]] for a string key [k]. *)
Definition subscript (v : value) (k : string) : result value :=
  match v with
  | VDict d =>
      match lookup k d with
      | Some x => Ok x
      | None => Raise (KeyError (VStr k))
      end
  | _ => Raise TypeError
  end.

(** [v.get(k, default)]: only mappings have a [get] method. *)
Definition py_get (v : value) (k : string) (default : value) : result value :=
  match v with
  | VDict d =>
      match lookup k d with
      | Some x => Ok x
      | None => Ok default
      end
  | _ => Raise AttributeError
  end.

(** Truth value of an object, as tested by [if x] and [not x]. *)
Definition truthy (v : value) : bool :=
  match v with
  | VNone => false
  | VBool b => b
  | VInt z => negb (z =? 0)
  | VStr s => negb (String.eqb s "")
  | VList l => match l with [] => false | _ => true end
  | VDict d => match d with [] => false | _ => true end
  end.

(** The items a [for] loop visits: the elements of a list, the
    characters of a string, the keys of a mapping. *)
Fixpoint chars (s : string) : list value :=
  match s with
  | EmptyString => []
  | String c rest => VStr (String c EmptyString) :: chars rest
  end.

Definition py_iter (v : value) : result (list value) :=
  match v with
  | VList l => Ok l
  | VStr s => Ok (chars s)
  | VDict d => Ok (map (fun kv => VStr (fst kv)) d)
  | _ => Raise TypeError
  end.

(** [v == s] for a string literal [s]. *)
Definition eq_str (v : value) (s : string) : bool :=
  match v with
  | VStr t => String.eqb t s
  | _ => false
  end.

(** ** Strings *)

Definition ascii_upper (c : ascii) : ascii :=
  let n := nat_of_ascii c in
  if ((97 <=? n) && (n <=? 122))%nat then ascii_of_nat (n - 32) else c.

(** [s.upper()] *)
Fixpoint upper (s : string) : string :=
  match s with
  | EmptyString => EmptyString
  | String c rest => String (ascii_upper c) (upper rest)
  end.

(** ** The enumeration [Option] *)

Inductive Option : Type :=
| BEFORE_EXPIRY
| EXPIRED
| RENEWAL
| UPGRADE
| REFUND.

(** [Option.X.value] *)
Definition Option_value (o : Option) : string :=
  match o with
  | BEFORE_EXPIRY => "before-expiry"
  | EXPIRED => "expired"
  | RENEWAL => "renewal"
  | UPGRADE => "upgrade"
  | REFUND => "refund"
  end.

(** ** The trace of observable calls *)

Inductive level : Type := DEBUG | ERROR.

Inductive event : Type :=
| Log (lvl : level) (fmt : string) (args : list value)
| ReadText (path : string)
| SubstituteParts (template : string)
| QueryNr (nr_number : value)
| Render (autoescape : bool) (template : string)
         (context : list (string * value)).

Definition is_query (e : event) : bool :=
  match e with QueryNr _ => true | _ => false end.

Definition is_error_log (e : event) : bool :=
  match e with Log ERROR _ _ => true | _ => false end.

(** ** The monad: a trace and either a value or a raised exception *)

Definition M (A : Type) : Type := (list event * result A)%type.

Definition ret {A} (a : A) : M A := ([], Ok a).

Definition bind {A B} (m : M A) (f : A -> M B) : M B :=
  match m with
  | (t, Raise e) => (t, Raise e)
  | (t, Ok a) => let (t', r) := f a in ((t ++ t')%list, r)
  end.

Definition lift {A} (r : result A) : M A := ([], r).

Definition emit (e : event) : M unit := ([e], Ok tt).

Notation "x <- m ;; k" := (bind m (fun x => k))
  (at level 61, m at next level, right associativity).
Notation "m ;;; k" := (bind m (fun _ => k))
  (at level 61, right associativity).

Definition trace_of {A} (m : M A) : list event := fst m.
Definition outcome {A} (m : M A) : result A := snd m.

(** ** The world outside the module

    Everything [process] reaches through an import.  The helpers of
    the sibling packages ([substitute_template_parts],
    [NameXService.query_nr_number], [LegislationDatetime]) and the
    ambient Flask configuration are taken as they are called; a
    missing configuration key reads as [None]. *)

Record Response : Type := {
  status_code : Z;
  json : value
}.

(** [HTTPStatus.OK] *)
Definition HTTPStatus_OK : Z := 200.

(** What a rendering template emits, piece by piece: the literal text
    between its statements, and the value of each expression it
    outputs.  An output is [safe] when the template marked it as
    markup of its own (the [safe] filter, an [autoescape] block that
    switches escaping off), and then autoescape leaves it alone. *)
Inductive item : Type :=
| Data (text : string)
| Output (v : value) (safe : bool).

Record World : Type := {
  (** [datetime.datetime] objects *)
  datetime : Type;
  (** [current_app.config.get(key)] *)
  config : string -> value;
  (** [Path(p).read_text()]: the text of the file at [p], if there is one *)
  files : string -> option string;
  (** [entity_emailer.email_processors.substitute_template_parts] *)
  substitute_template_parts : string -> string;
  (** [NameXService.query_nr_number] *)
  query_nr_number : value -> Response;
  (** [datetime.fromisoformat] on a string; [None] stands for [ValueError] *)
  fromisoformat : string -> option datetime;
  (** [LegislationDatetime.as_legislation_timezone] *)
  as_legislation_timezone : datetime -> datetime;
  (** [LegislationDatetime.format_as_report_string] *)
  format_as_report_string : datetime -> string;
  (** [str(x)] of a list or a mapping *)
  container_str : value -> string;
  (** [Template(source, autoescape=b)] on a source outside the fragment
      spelled out below: the template is built, or the constructor
      raises (a syntax error) *)
  jinja_compile : bool -> string -> result unit;
  (** [template.render] on a context, for such a source: the pieces the
      template emits, or the exception its evaluation raises *)
  jinja_run : bool -> string -> list (string * value) -> result (list item)
}.

(** [str(v)], as an f-string and Jinja2 format a value. *)
Definition py_str (w : World) (v : value) : string :=
  match v with
  | VStr s => s
  | VNone => "None"
  | VBool true => "True"
  | VBool false => "False"
  | VInt z => NilZero.string_of_int (Z.to_int z)
  | VList _ | VDict _ => container_str w v
  end.

(** [Path(p).read_text()] *)
Definition read_text (w : World) (p : string) : M string :=
  emit (ReadText p) ;;;
  match files w p with
  | Some text => ret text
  | None => lift (Raise (FileNotFoundError p))
  end.

(** [datetime.fromisoformat(v)] *)
Definition py_fromisoformat (w : World) (v : value) : result (datetime w) :=
  match v with
  | VStr s =>
      match fromisoformat w s with
      | Some d => Ok d
      | None => Raise ValueError
      end
  | _ => Raise TypeError
  end.

(** ** Jinja2: [Template(source, autoescape=b).render] on a context

    Two layers.  The fragment spelled out here is a template made of
    literal text (printable ASCII, tabs and line feeds) and of
    [{{ name }}] outputs of variables bound in the context.  For any
    other template (blocks, comments, filters, unbound or reserved
    names, other line separators, which the lexer rewrites) parsing
    and evaluation are the world's ([jinja_compile], [jinja_run]), and
    what is fixed here is how the engine turns the emitted pieces
    into the result: literal text as it is, an output through
    [markupsafe.escape] when autoescape is on and the template did not
    mark it safe, through [str] otherwise. *)

Definition TAB : ascii := "009"%char.
Definition LF : ascii := "010"%char.
Definition DQUOTE : ascii := "034"%char.
Definition SQUOTE : ascii := "039"%char.

(** [markupsafe.escape] on one character *)
Definition escape_char (c : ascii) : string :=
  if Ascii.eqb c "&" then "&amp;"
  else if Ascii.eqb c "<" then "&lt;"
  else if Ascii.eqb c ">" then "&gt;"
  else if Ascii.eqb c SQUOTE then "&#39;"
  else if Ascii.eqb c DQUOTE then "&#34;"
  else String c EmptyString.

(** [markupsafe.escape] *)
Fixpoint html_escape (s : string) : string :=
  match s with
  | EmptyString => EmptyString
  | String c rest => escape_char c ++ html_escape rest
  end.

Inductive tnode : Type :=
| TData (text : string)
| TVar (name : string).

Definition ident_start (c : ascii) : bool :=
  let n := nat_of_ascii c in
  (((65 <=? n) && (n <=? 90)) || ((97 <=? n) && (n <=? 122)) || (n =? 95))%nat.

Definition ident_char (c : ascii) : bool :=
  let n := nat_of_ascii c in
  (ident_start c || ((48 <=? n) && (n <=? 57)))%nat.

(** The characters the lexer hands on as they are. *)
Definition is_plain (c : ascii) : bool :=
  let n := nat_of_ascii c in
  (((32 <=? n) && (n <=? 126)) || Ascii.eqb c TAB || Ascii.eqb c LF)%nat.

Definition push_char (c : ascii) (nodes : list tnode) : list tnode :=
  match nodes with
  | TData d :: rest => TData (String c d) :: rest
  | _ => TData (String c EmptyString) :: nodes
  end.

Inductive lex_mode : Type :=
| InData
| ExprLead
| ExprName (name : string)
| ExprTrail (name : string).

(** The lexer of the fragment; [None] when the source leaves it. *)
Fixpoint lex (m : lex_mode) (s : string) : option (list tnode) :=
  match m, s with
  | InData, EmptyString => Some []
  | InData, String c rest =>
      if negb (is_plain c) then None
      else if Ascii.eqb c "{" then
        match rest with
        | String c' rest' =>
            if Ascii.eqb c' "{" then lex ExprLead rest'
            else if Ascii.eqb c' "%" || Ascii.eqb c' "#" then None
            else option_map (push_char c) (lex InData rest)
        | EmptyString => option_map (push_char c) (lex InData rest)
        end
      else option_map (push_char c) (lex InData rest)
  | ExprLead, String c rest =>
      if Ascii.eqb c " " then lex ExprLead rest
      else if ident_start c then lex (ExprName (String c EmptyString)) rest
      else None
  | ExprName name, String c rest =>
      if ident_char c then lex (ExprName (name ++ String c EmptyString)) rest
      else if Ascii.eqb c " " then lex (ExprTrail name) rest
      else if Ascii.eqb c "}" then
        match rest with
        | String c' rest' =>
            if Ascii.eqb c' "}"
            then option_map (cons (TVar name)) (lex InData rest')
            else None
        | EmptyString => None
        end
      else None
  | ExprTrail name, String c rest =>
      if Ascii.eqb c " " then lex (ExprTrail name) rest
      else if Ascii.eqb c "}" then
        match rest with
        | String c' rest' =>
            if Ascii.eqb c' "}"
            then option_map (cons (TVar name)) (lex InData rest')
            else None
        | EmptyString => None
        end
      else None
  | _, EmptyString => None
  end.

(** Jinja2 drops one newline at the end of the source
    ([keep_trailing_newline] is off). *)
Fixpoint strip_trailing_newline (s : string) : string :=
  match s with
  | EmptyString => EmptyString
  | String c rest =>
      match rest with
      | EmptyString => if Ascii.eqb c LF then EmptyString else s
      | _ => String c (strip_trailing_newline rest)
      end
  end.

(** Names the expression grammar reads as constants or operators. *)
Definition reserved_names : list string :=
  ["true"; "false"; "none"; "True"; "False"; "None";
   "and"; "or"; "not"; "in"; "is"; "if"; "else"; "self"].

Definition is_reserved (name : string) : bool :=
  existsb (String.eqb name) reserved_names.

Definition render_node (w : World) (autoescape : bool)
    (context : list (string * value)) (n : tnode) : option string :=
  match n with
  | TData text => Some text
  | TVar name =>
      if is_reserved name then None
      else match lookup name context with
           | Some v =>
               Some (if autoescape then html_escape (py_str w v)
                     else py_str w v)
           | None => None
           end
  end.

Fixpoint render_nodes (w : World) (autoescape : bool)
    (context : list (string * value)) (nodes : list tnode) : option string :=
  match nodes with
  | [] => Some EmptyString
  | n :: rest =>
      match render_node w autoescape context n,
            render_nodes w autoescape context rest with
      | Some a, Some b => Some (a ++ b)
      | _, _ => None
      end
  end.

Definition jinja_fragment (w : World) (autoescape : bool) (source : string)
    (context : list (string * value)) : option string :=
  match lex InData (strip_trailing_newline source) with
  | Some nodes => render_nodes w autoescape context nodes
  | None => None
  end.

(** The text of one emitted piece. *)
Definition emit_item (w : World) (autoescape : bool) (it : item) : string :=
  match it with
  | Data text => text
  | Output v safe =>
      if autoescape && negb safe then html_escape (py_str w v)
      else py_str w v
  end.

(** The result of a rendering: the pieces, joined. *)
Fixpoint assemble (w : World) (autoescape : bool) (items : list item)
  : string :=
  match items with
  | [] => EmptyString
  | it :: rest => emit_item w autoescape it ++ assemble w autoescape rest
  end.

(** Lines 116-117: [Template(source, autoescape=b)], then [render] on
    the context.  The [Render] event is the call of [render]: a
    template that cannot be built raises before it. *)
Definition jinja_render (w : World) (autoescape : bool) (source : string)
    (context : list (string * value)) : M string :=
  match jinja_fragment w autoescape source context with
  | Some out => emit (Render autoescape source context) ;;; ret out
  | None =>
      lift (jinja_compile w autoescape source) ;;;
      emit (Render autoescape source context) ;;;
      items <- lift (jinja_run w autoescape source context) ;;
      ret (assemble w autoescape items)
  end.

(** ** [get_url] *)

Definition get_url (w : World) (entity_type_cd : value) : result value :=
  let DECIDE_BUSINESS_URL := config w "DECIDE_BUSINESS_URL" in
  let CORP_FORMS_URL := config w "CORP_FORMS_URL" in
  let BUSINESS_URL := config w "BUSINESS_URL" in
  let CORP_ONLINE_URL := config w "COLIN_URL" in
  let GENERIC_STEPS :=
    VStr "Submit appropriate form to BC Registries. Call if assistance required" in
  let EX_COOP_ASSOC := VStr "Extraprovincial Cooperative Association" in
  let url :=
    [ (* BC Types *)
      ("CR", CORP_ONLINE_URL);
      ("UL", CORP_ONLINE_URL);
      ("FR", DECIDE_BUSINESS_URL);
      ("GP", DECIDE_BUSINESS_URL);
      ("DBA", DECIDE_BUSINESS_URL);
      ("LP", CORP_FORMS_URL);
      ("LL", CORP_FORMS_URL);
      ("CP", BUSINESS_URL);
      ("BC", BUSINESS_URL);
      ("CC", CORP_ONLINE_URL);
      ("SO", VStr "BC Social Enterprise");
      ("PA", GENERIC_STEPS);
      ("FI", GENERIC_STEPS);
      ("PAR", GENERIC_STEPS);
      (* XPRO and Foreign Types *)
      ("XCR", CORP_ONLINE_URL);
      ("XUL", CORP_ONLINE_URL);
      ("RLC", CORP_ONLINE_URL);
      ("XLP", CORP_FORMS_URL);
      ("XLL", CORP_FORMS_URL);
      ("XCP", EX_COOP_ASSOC);
      ("XSO", EX_COOP_ASSOC) ] in
  match entity_type_cd with
  | VStr code =>
      Ok (match lookup code url with Some u => u | None => VNone end)
  | VList _ | VDict _ => Raise TypeError  (* unhashable key *)
  | _ => Ok VNone
  end.

(** ** [process] *)

Definition rbind {A B} (r : result A) (f : A -> result B) : result B :=
  match r with
  | Ok a => f a
  | Raise e => Raise e
  end.

Notation "x <~ r ;; k" := (rbind r (fun x => k))
  (at level 61, r at next level, right associativity).

(** The argument of [Path] at line 86, as the f-string builds it
    (pathlib then normalises it); [upper] is [str.upper] on ASCII text. *)
Definition template_path (w : World) (option : string) : string :=
  py_str w (config w "TEMPLATE_PATH") ++ "/NR-" ++ upper option ++ ".html".

(** Lines 96-100. *)
Definition expiration_date_of (w : World) (nr_data : value) : result value :=
  raw <~ subscript nr_data "expirationDate" ;;
  if truthy raw then
    exp_date <~ py_fromisoformat w raw ;;
    let exp_date_tz := as_legislation_timezone w exp_date in
    Ok (VStr (format_as_report_string w exp_date_tz))
  else Ok (VStr "").

(** Lines 102-104. *)
Definition refund_value_of (email_info : value) (option : string)
  : result value :=
  if String.eqb option (Option_value REFUND) then
    data <~ py_get email_info "data" empty_dict ;;
    request <~ py_get data "request" empty_dict ;;
    py_get request "refundValue" VNone
  else Ok (VStr "").

(** The loop of lines 107-110 over the items of [nr_data['names']]. *)
Fixpoint legal_name_loop (items : list value) : result value :=
  match items with
  | [] => Ok (VStr "")
  | n_item :: rest =>
      state <~ subscript n_item "state" ;;
      if eq_str state "APPROVED" || eq_str state "CONDITION"
      then subscript n_item "name"
      else legal_name_loop rest
  end.

(** Lines 106-110. *)
Definition legal_name_of (nr_data : value) : result value :=
  names <~ subscript nr_data "names" ;;
  items <~ py_iter names ;;
  legal_name_loop items.

(** The keyword arguments of [mail_template.render], lines 96-124. *)
Definition render_context (w : World) (email_info : value) (option : string)
    (nr_number nr_data : value) : result (list (string * value)) :=
  expiration_date <~ expiration_date_of w nr_data ;;
  refund_value <~ refund_value_of email_info option ;;
  legal_name <~ legal_name_of nr_data ;;
  entity_type_cd <~ subscript nr_data "entity_type_cd" ;;
  name_request_url <~ get_url w entity_type_cd ;;
  let decide_business_url := config w "DECIDE_BUSINESS_URL" in
  Ok [ ("nr_number", nr_number);
       ("expiration_date", expiration_date);
       ("legal_name", legal_name);
       ("refund_value", refund_value);
       ("name_request_url", name_request_url);
       ("decide_business_url", decide_business_url) ].

(** The table of lines 131-137. *)
Definition subjects : list (string * string) :=
  [ (Option_value BEFORE_EXPIRY, "Expiring Soon");
    (Option_value EXPIRED, "Expired");
    (Option_value RENEWAL, "Confirmation of Renewal");
    (Option_value UPGRADE, "Confirmation of Upgrade");
    (Option_value REFUND, "Refund request confirmation") ].

(** [subjects[option]] *)
Definition subjects_get (option : string) : result string :=
  match lookup option subjects with
  | Some s => Ok s
  | None => Raise (KeyError (VStr option))
  end.

Definition sender : string := "BCRegistries@gov.bc.ca".

(** The mapping returned at lines 139-147. *)
Definition payload (recipients : value) (subject body : string) : value :=
  VDict [ ("recipients", recipients);
          ("requestBy", VStr sender);
          ("content", VDict [ ("subject", VStr subject);
                              ("body", VStr body);
                              ("attachments", VList []) ]) ].

(** [process], lines 78-147: build the e-mail for a Name Request
    notification.  Each [return] of the source ends a branch here. *)
Definition process (w : World) (email_info : value) (option : string)
  : M value :=
  emit (Log DEBUG "NR %s notification: %s" [VStr option; email_info]) ;;;
  nr_number <- lift (subscript email_info "identifier") ;;
  template <- read_text w (template_path w option) ;;
  emit (SubstituteParts template) ;;;
  let filled_template := substitute_template_parts w template in
  emit (QueryNr nr_number) ;;;
  let nr_response := query_nr_number w nr_number in
  if negb (status_code nr_response =? HTTPStatus_OK) then
    emit (Log ERROR "Failed to get nr info for name request: %s" [nr_number]) ;;;
    ret empty_dict
  else
    let nr_data := json nr_response in
    context <- lift (render_context w email_info option nr_number nr_data) ;;
    html_out <- jinja_render w true filled_template context ;;
    (* get recipients *)
    applicants <- lift (subscript nr_data "applicants") ;;
    recipients <- lift (subscript applicants "emailAddress") ;;
    if negb (truthy recipients) then ret empty_dict
    else
      subject <- lift (subjects_get option) ;;
      ret (payload recipients (py_str w nr_number ++ " - " ++ subject) html_out).

(** ** Vocabulary of the properties *)

(** The two log records [process] can write. *)
Definition debug_event (email_info : value) (option : string) : event :=
  Log DEBUG "NR %s notification: %s" [VStr option; email_info].

Definition error_event (nr_number : value) : event :=
  Log ERROR "Failed to get nr info for name request: %s" [nr_number].

(** The calls every run makes before it looks at the registry's answer. *)
Definition prelude (w : World) (email_info : value) (option : string)
    (template : string) (nr_number : value) : list event :=
  [ debug_event email_info option;
    ReadText (template_path w option);
    SubstituteParts template;
    QueryNr nr_number ].

(** A name entry of the registry record: a mapping with a state and a name. *)
Definition is_name_entry (n_item : value) : bool :=
  match subscript n_item "state", subscript n_item "name" with
  | Ok _, Ok _ => true
  | _, _ => false
  end.

Definition state_is_approved (n_item : value) : bool :=
  match subscript n_item "state" with
  | Ok state => eq_str state "APPROVED" || eq_str state "CONDITION"
  | Raise _ => false
  end.

(** The legal name in the words of the specification: the name of the
    first entry whose state is APPROVED or CONDITION, else the empty
    string. *)
Definition first_approved_name (items : list value) : value :=
  match find state_is_approved items with
  | Some n_item =>
      match subscript n_item "name" with
      | Ok name => name
      | Raise _ => VStr ""
      end
  | None => VStr ""
  end.

(** Walking a path of keys through nested mappings. *)
Fixpoint path_lookup (v : value) (path : list string) : option value :=
  match path with
  | [] => Some v
  | k :: rest =>
      match v with
      | VDict d =>
          match lookup k d with
          | Some x => path_lookup x rest
          | None => None
          end
      | _ => None
      end
  end.

(** Some key of the path is missing from the mapping that should hold it. *)
Fixpoint key_missing (v : value) (path : list string) : bool :=
  match path with
  | [] => false
  | k :: rest =>
      match v with
      | VDict d =>
          match lookup k d with
          | Some x => key_missing x rest
          | None => true
          end
      | _ => false
      end
  end.

Definition refund_path : list string := ["data"; "request"; "refundValue"].

(** The characters that open or close a tag or an attribute value. *)
Definition is_markup_char (c : ascii) : bool :=
  Ascii.eqb c "<" || Ascii.eqb c ">" || Ascii.eqb c SQUOTE || Ascii.eqb c DQUOTE.

(** The character references an HTML reader decodes here, each without
    its ampersand, and the character it stands for. *)
Definition entities : list (string * ascii) :=
  [ ("amp;", "&"%char); ("lt;", "<"%char); ("gt;", ">"%char);
    ("#39;", SQUOTE); ("#34;", DQUOTE) ].

(** [s] without the prefix [p], when it starts with it. *)
Fixpoint strip_prefix (p s : string) : option string :=
  match p, s with
  | EmptyString, _ => Some s
  | String a p', String b s' =>
      if Ascii.eqb a b then strip_prefix p' s' else None
  | String _ _, EmptyString => None
  end.

(** The first reference of the table that [s] starts with: its
    character and what follows it. *)
Fixpoint decode_entity (table : list (string * ascii)) (s : string)
  : option (ascii * string) :=
  match table with
  | [] => None
  | (name, c) :: others =>
      match strip_prefix name s with
      | Some rest => Some (c, rest)
      | None => decode_entity others s
      end
  end.

(** Text as an HTML reader shows it: every character reference of the
    table replaced by its character.  The names of the references hold
    no ampersand, so a reference can be recognised after what follows
    the ampersand has been decoded. *)
Fixpoint html_unescape (s : string) : string :=
  match s with
  | EmptyString => EmptyString
  | String c rest =>
      let shown := html_unescape rest in
      if Ascii.eqb c "&" then
        match decode_entity entities shown with
        | Some (x, after) => String x after
        | None => String c shown
        end
      else String c shown
  end.

(** Text that an HTML reader takes for character data only: it holds
    none of the characters that open or close a tag or an attribute
    value, and every ampersand in it starts a character reference of
    the table. *)
Fixpoint well_escaped (s : string) : bool :=
  match s with
  | EmptyString => true
  | String c rest =>
      (if Ascii.eqb c "&"
       then match decode_entity entities rest with
            | Some _ => true
            | None => false
            end
       else negb (is_markup_char c))
      && well_escaped rest
  end.





(** The names [process] binds for the template. *)
Definition context_names : list string :=
  [ "nr_number"; "expiration_date"; "legal_name"; "refund_value";
    "name_request_url"; "decide_business_url" ].


(** What is left of [process] once the registry has answered OK. *)
Definition package (w : World) (option : string) (nr_number nr_data : value)
    (html_out : string) : result value :=
  applicants <~ subscript nr_data "applicants" ;;
  recipients <~ subscript applicants "emailAddress" ;;
  if negb (truthy recipients) then Ok empty_dict
  else
    subject <~ subjects_get option ;;
    Ok (payload recipients (py_str w nr_number ++ " - " ++ subject) html_out).


(** The keys of the table of [get_url], in the order of the source. *)
Definition entity_type_codes : list string :=
  [ "CR"; "UL"; "FR"; "GP"; "DBA"; "LP"; "LL"; "CP"; "BC"; "CC"; "SO";
    "PA"; "FI"; "PAR"; "XCR"; "XUL"; "RLC"; "XLP"; "XLL"; "XCP"; "XSO" ].

(** The keys of the table whose entry is a description, not a setting. *)
Definition described_codes : list string :=
  [ "SO"; "PA"; "FI"; "PAR"; "XCP"; "XSO" ].

(** The configuration keys [get_url] reads. *)
Definition url_settings : list string :=
  [ "DECIDE_BUSINESS_URL"; "CORP_FORMS_URL"; "BUSINESS_URL"; "COLIN_URL" ].

(** Everything [get_url] can answer for a string. *)
Definition url_answers (w : World) : list value :=
  [ config w "COLIN_URL";
    config w "DECIDE_BUSINESS_URL";
    config w "CORP_FORMS_URL";
    config w "BUSINESS_URL";
    VStr "BC Social Enterprise";
    VStr "Submit appropriate form to BC Registries. Call if assistance required";
    VStr "Extraprovincial Cooperative Association";
    VNone ].

Definition is_render (e : event) : bool :=
  match e with Render _ _ _ => true | _ => false end.

(** A name entry the loop passes over: it has a state, and the state
    is neither APPROVED nor CONDITION. *)
Definition is_passed_over (n_item : value) : bool :=
  match subscript n_item "state" with
  | Ok state => negb (eq_str state "APPROVED" || eq_str state "CONDITION")
  | Raise _ => false
  end.

Definition is_mapping (v : value) : bool :=
  match v with VDict _ => true | _ => false end.

(** ** Sample worlds *)

Module Sample.

(** A world with one template file, for the option [renewal], a
    registry that answers every query with [resp], and date helpers
    that know one instant. *)
Definition world (template : option string) (resp : Response) : World :=
  {| datetime := string;
     config := fun key =>
       if String.eqb key "TEMPLATE_PATH" then VStr "/opt/templates"
       else if String.eqb key "BUSINESS_URL"
       then VStr "https://business.example"
       else VNone;
     files := fun path =>
       if String.eqb path "/opt/templates/NR-RENEWAL.html" then template
       else None;
     substitute_template_parts := fun text => text;
     query_nr_number := fun _ => resp;
     fromisoformat := fun s =>
       if String.eqb s "2023-05-01T00:00:00+00:00" then Some s else None;
     as_legislation_timezone := fun d =>
       if String.eqb d "2023-05-01T00:00:00+00:00"
       then "2023-04-30T17:00:00-07:00" else d;
     format_as_report_string := fun d =>
       if String.eqb d "2023-04-30T17:00:00-07:00"
       then "April 30, 2023 at 5:00 pm Pacific time" else d;
     container_str := fun _ => EmptyString;
     jinja_compile := fun _ _ => Raise (OtherError "TemplateSyntaxError");
     jinja_run := fun _ _ _ => Raise (OtherError "UndefinedError") |}.

Definition nr_number : value := VStr "NR 1234567".

Definition email_info : value := VDict [("identifier", nr_number)].

Definition refund_info : value :=
  VDict [ ("identifier", nr_number);
          ("data",
           VDict [("request", VDict [("refundValue", VStr "31.50")])]) ].

Definition template : string :=
  "<p>{{ nr_number }}: {{ legal_name }} expires {{expiration_date}}</p>".

Definition acme_body : string :=
  "<p>NR 1234567: Acme Co expires April 30, 2023 at 5:00 pm Pacific time</p>".

Definition name_entry (name state : string) : value :=
  VDict [("name", VStr name); ("state", VStr state)].

Definition record (names : list value) (applicants : value) : value :=
  VDict [ ("names", VList names);
          ("applicants", applicants);
          ("expirationDate", VStr "2023-05-01T00:00:00+00:00");
          ("entity_type_cd", VStr "BC") ].

Definition owner : value :=
  VDict [("emailAddress", VStr "owner@acme.example")].

Definition acme : value := record [name_entry "Acme Co" "APPROVED"] owner.

Definition two_names : list value :=
  [name_entry "A" "REJECTED"; name_entry "B" "CONDITION"].

Definition null_recipients : value :=
  record [name_entry "Acme Co" "APPROVED"] (VDict [("emailAddress", VNone)]).



Definition no_expiration_key : value :=
  VDict [ ("names", VList [name_entry "Acme Co" "APPROVED"]);
          ("applicants", owner);
          ("entity_type_cd", VStr "BC") ].


Definition ok (body : value) : Response :=
  {| status_code := 200; json := body |}.

Definition not_found : Response :=
  {| status_code := 404; json := VNone |}.

(** The registry answers OK with [body]; the template is there. *)
Definition registry_ok (body : value) : World := world (Some template) (ok body).

(** The registry answers 404; the template is there. *)
Definition registry_down : World := world (Some template) not_found.

(** The template file is missing. *)
Definition no_template (resp : Response) : World := world None resp.



(** Every path holds the sample template. *)
Definition any_template (resp : Response) : World :=
  {| datetime := string;
     config := config (world None resp);
     files := fun _ => Some template;
     substitute_template_parts := fun text => text;
     query_nr_number := fun _ => resp;
     fromisoformat := fromisoformat (world None resp);
     as_legislation_timezone := as_legislation_timezone (world None resp);
     format_as_report_string := format_as_report_string (world None resp);
     container_str := fun _ => EmptyString;
     jinja_compile := fun _ _ => Raise (OtherError "TemplateSyntaxError");
     jinja_run := fun _ _ _ => Raise (OtherError "UndefinedError") |}.

(** A template outside the modelled fragment, which the sample engine
    refuses. *)
Definition block_template : string := "{% if %}".



Definition bad_date : value :=
  VDict [ ("names", VList [name_entry "Acme Co" "APPROVED"]);
          ("applicants", owner);
          ("expirationDate", VStr "tomorrow");
          ("entity_type_cd", VStr "BC") ].

Definition acme_context : list (string * value) :=
  [ ("nr_number", nr_number);
    ("expiration_date", VStr "April 30, 2023 at 5:00 pm Pacific time");
    ("legal_name", VStr "Acme Co");
    ("refund_value", VStr "");
    ("name_request_url", VStr "https://business.example");
    ("decide_business_url", VNone) ].

(** The sample configuration with the templates somewhere else. *)
Definition moved (resp : Response) : World :=
  {| datetime := string;
     config := fun key =>
       if String.eqb key "TEMPLATE_PATH" then VStr "/srv/mail"
       else config (world None resp) key;
     files := fun _ => None;
     substitute_template_parts := fun text => text;
     query_nr_number := fun _ => resp;
     fromisoformat := fromisoformat (world None resp);
     as_legislation_timezone := as_legislation_timezone (world None resp);
     format_as_report_string := format_as_report_string (world None resp);
     container_str := fun _ => EmptyString;
     jinja_compile := fun _ _ => Raise (OtherError "TemplateSyntaxError");
     jinja_run := fun _ _ _ => Raise (OtherError "UndefinedError") |}.

End Sample.

(** * Properties *)

Ltac skip_events H :=
  cbn in H; repeat (destruct H as [H|H]; [discriminate H|]).

Ltac not_in_trace H := skip_events H; contradiction H.

(** ** How a run of [process] unfolds *)

Lemma run_eta {A} (m : M A) : m = (trace_of m, outcome m).
Proof. now destruct m. Qed.

(** The packaging step returns the empty mapping or a full payload. *)
Lemma package_inv w option nr_number nr_data html_out p :
  package w option nr_number nr_data html_out = Ok p ->
  exists applicants recipients,
    subscript nr_data "applicants" = Ok applicants /\
    subscript applicants "emailAddress" = Ok recipients /\
    ((truthy recipients = false /\ p = empty_dict) \/
     (truthy recipients = true /\
      exists subject,
        lookup option subjects = Some subject /\
        p = payload recipients (py_str w nr_number ++ " - " ++ subject)
              html_out)).
Proof.
  unfold package, rbind, subjects_get. intros H.
  destruct (subscript nr_data "applicants") as [a|e]; [|discriminate].
  destruct (subscript a "emailAddress") as [r|e] eqn:Hr; [|discriminate].
  exists a, r. split; [reflexivity|]. split; [exact Hr|].
  destruct (truthy r); cbn [negb] in H.
  - right. split; [reflexivity|].
    destruct (lookup option subjects) as [s|]; [|discriminate].
    exists s. inversion H. auto.
  - left. inversion H. auto.
Qed.

Lemma render_context_inv w email_info option nr_number nr_data context :
  render_context w email_info option nr_number nr_data = Ok context ->
  exists expiration_date refund_value legal_name entity_type_cd url,
    expiration_date_of w nr_data = Ok expiration_date /\
    refund_value_of email_info option = Ok refund_value /\
    legal_name_of nr_data = Ok legal_name /\
    subscript nr_data "entity_type_cd" = Ok entity_type_cd /\
    get_url w entity_type_cd = Ok url /\
    context =
      [ ("nr_number", nr_number);
        ("expiration_date", expiration_date);
        ("legal_name", legal_name);
        ("refund_value", refund_value);
        ("name_request_url", url);
        ("decide_business_url", config w "DECIDE_BUSINESS_URL") ].
Proof.
  unfold render_context, rbind. intros H.
  destruct (expiration_date_of w nr_data) as [e|]; [|discriminate].
  destruct (refund_value_of email_info option) as [r|]; [|discriminate].
  destruct (legal_name_of nr_data) as [l|]; [|discriminate].
  destruct (subscript nr_data "entity_type_cd") as [c|]; [|discriminate].
  destruct (get_url w c) as [u|] eqn:Hu; [|discriminate].
  exists e, r, l, c, u. inversion H. repeat split. exact Hu.
Qed.

(** ** How a rendering unfolds *)


(** [render] is called once, unless the template cannot be built. *)
Lemma jinja_render_run w b source context :
  (exists e, jinja_render w b source context = ([], Raise e)) \/
  trace_of (jinja_render w b source context) = [Render b source context].
Proof.
  unfold jinja_render, lift, emit, bind, ret.
  destruct (jinja_fragment w b source context) as [out|]; [now right|].
  destruct (jinja_compile w b source) as [[]|e]; [|left; now exists e].
  right. now destruct (jinja_run w b source context).
Qed.

Lemma jinja_render_ok w b source context out :
  outcome (jinja_render w b source context) = Ok out ->
  trace_of (jinja_render w b source context) = [Render b source context].
Proof.
  intros H. destruct (jinja_render_run w b source context) as [[e He]|Ht];
    [|exact Ht].
  rewrite He in H. discriminate H.
Qed.



Section Run.

Variables (w : World) (email_info : value) (option : string).

Lemma process_no_identifier e :
  subscript email_info "identifier" = Raise e ->
  process w email_info option = ([debug_event email_info option], Raise e).
Proof.
  intros H. unfold process, lift, emit, bind. now rewrite H.
Qed.

Lemma process_no_template nr_number :
  subscript email_info "identifier" = Ok nr_number ->
  files w (template_path w option) = None ->
  process w email_info option =
    ([debug_event email_info option; ReadText (template_path w option)],
     Raise (FileNotFoundError (template_path w option))).
Proof.
  intros H1 H2. unfold process, read_text, lift, emit, bind.
  now rewrite H1, H2.
Qed.

Lemma process_not_ok nr_number template :
  subscript email_info "identifier" = Ok nr_number ->
  files w (template_path w option) = Some template ->
  status_code (query_nr_number w nr_number) <> HTTPStatus_OK ->
  process w email_info option =
    ((prelude w email_info option template nr_number
        ++ [error_event nr_number])%list,
     Ok empty_dict).
Proof.
  intros H1 H2 H3. unfold process, read_text, lift, emit, bind, ret.
  rewrite H1, H2. apply Z.eqb_neq in H3. now rewrite H3.
Qed.

Lemma process_status_ok nr_number template :
  subscript email_info "identifier" = Ok nr_number ->
  files w (template_path w option) = Some template ->
  status_code (query_nr_number w nr_number) = HTTPStatus_OK ->
  process w email_info option =
    match render_context w email_info option nr_number
            (json (query_nr_number w nr_number)) with
    | Raise e => (prelude w email_info option template nr_number, Raise e)
    | Ok context =>
        ((prelude w email_info option template nr_number
            ++ trace_of (jinja_render w true
                           (substitute_template_parts w template) context))%list,
         match outcome (jinja_render w true
                          (substitute_template_parts w template) context) with
         | Raise e => Raise e
         | Ok html_out =>
             package w option nr_number (json (query_nr_number w nr_number))
               html_out
         end)
    end.
Proof.
  intros H1 H2 H3.
  unfold process, read_text, lift, emit, bind, ret. rewrite H1, H2.
  apply Z.eqb_eq in H3. rewrite H3. cbn [negb].
  destruct (render_context _ _ _ _ _) as [context|e]; [|reflexivity].
  destruct (jinja_render _ _ _ _) as [t [out|e]]; cbn; [|reflexivity].
  unfold package, rbind.
  destruct (subscript (json _) "applicants") as [a|e];
    cbn; [|now rewrite app_nil_r].
  destruct (subscript a "emailAddress") as [r|e]; cbn; [|now rewrite app_nil_r].
  destruct (truthy r); cbn; [|now rewrite app_nil_r].
  destruct (subjects_get option); cbn; now rewrite app_nil_r.
Qed.

(** A run that does not raise has found the identifier and the
    template, and then either met a status other than OK or rendered
    the template and packaged the result. *)
Lemma process_outcome_inv p :
  outcome (process w email_info option) = Ok p ->
  exists nr_number template,
    subscript email_info "identifier" = Ok nr_number /\
    files w (template_path w option) = Some template /\
    ((status_code (query_nr_number w nr_number) <> HTTPStatus_OK /\
      trace_of (process w email_info option) =
        (prelude w email_info option template nr_number
           ++ [error_event nr_number])%list /\
      p = empty_dict)
     \/
     (status_code (query_nr_number w nr_number) = HTTPStatus_OK /\
      exists context html_out,
        render_context w email_info option nr_number
          (json (query_nr_number w nr_number)) = Ok context /\
        outcome (jinja_render w true (substitute_template_parts w template)
                   context) = Ok html_out /\
        trace_of (process w email_info option) =
          (prelude w email_info option template nr_number
             ++ [Render true (substitute_template_parts w template)
                   context])%list /\
        package w option nr_number (json (query_nr_number w nr_number))
          html_out = Ok p)).
Proof.
  destruct (subscript email_info "identifier") as [nr_number|e] eqn:H1.
  2:{ rewrite (process_no_identifier _ H1). discriminate. }
  destruct (files w (template_path w option)) as [template|] eqn:H2.
  2:{ rewrite (process_no_template _ H1 H2). discriminate. }
  intros H. exists nr_number, template.
  split; [reflexivity|]. split; [reflexivity|].
  destruct (Z.eq_dec (status_code (query_nr_number w nr_number)) HTTPStatus_OK)
    as [H3|H3].
  - right. split; [exact H3|].
    rewrite (process_status_ok _ _ H1 H2 H3) in H |- *.
    destruct (render_context _ _ _ _ _) as [context|e]; [|discriminate].
    cbn [outcome snd] in H.
    destruct (outcome (jinja_render _ _ _ _)) as [html_out|e] eqn:H4;
      [|discriminate].
    exists context, html_out.
    split; [reflexivity|]. split; [exact H4|]. split; [|exact H].
    cbn [trace_of fst]. fold (trace_of (jinja_render w true
      (substitute_template_parts w template) context)).
    now rewrite (jinja_render_ok _ _ _ _ _ H4).
  - left. rewrite (process_not_ok _ _ H1 H2 H3) in H |- *.
    inversion H. auto.
Qed.

(** A returned mapping that is not empty is the payload. *)
Lemma process_payload_inv p :
  outcome (process w email_info option) = Ok p ->
  truthy p = true ->
  exists nr_number applicants recipients suffix body,
    subscript email_info "identifier" = Ok nr_number /\
    subscript (json (query_nr_number w nr_number)) "applicants"
      = Ok applicants /\
    subscript applicants "emailAddress" = Ok recipients /\
    lookup option subjects = Some suffix /\
    p = payload recipients (py_str w nr_number ++ " - " ++ suffix) body.
Proof.
  intros H Hp.
  destruct (process_outcome_inv _ H)
    as (nr_number & template & H1 & _ &
        [(_ & _ & ->)|(_ & c & h & _ & _ & _ & Hk)]).
  - discriminate Hp.
  - destruct (package_inv _ _ _ _ _ _ Hk)
      as (a & r & Ha & Hr & [(_ & ->)|(_ & s & Hs & ->)]).
    + discriminate Hp.
    + exists nr_number, a, r, s, h. repeat split; assumption.
Qed.

(** Every run with an identifier starts with the debug record and the
    read of the template file. *)
Lemma process_reads_template nr_number :
  subscript email_info "identifier" = Ok nr_number ->
  exists rest,
    trace_of (process w email_info option) =
      debug_event email_info option
        :: ReadText (template_path w option) :: rest.
Proof.
  intros H1.
  destruct (files w (template_path w option)) as [template|] eqn:H2.
  - destruct (Z.eq_dec (status_code (query_nr_number w nr_number))
                HTTPStatus_OK) as [H3|H3].
    + rewrite (process_status_ok _ _ H1 H2 H3).
      destruct (render_context _ _ _ _ _); eexists; reflexivity.
    + rewrite (process_not_ok _ _ H1 H2 H3). eexists; reflexivity.
  - rewrite (process_no_template _ H1 H2). eexists; reflexivity.
Qed.

(** The one [Render] call of a run has autoescape on and carries the
    substituted template and the context computed from the request and
    the registry record. *)
Lemma process_render_inv nr_number b source context :
  subscript email_info "identifier" = Ok nr_number ->
  In (Render b source context) (trace_of (process w email_info option)) ->
  b = true /\
  status_code (query_nr_number w nr_number) = HTTPStatus_OK /\
  (exists template,
     files w (template_path w option) = Some template /\
     source = substitute_template_parts w template) /\
  render_context w email_info option nr_number
    (json (query_nr_number w nr_number)) = Ok context.
Proof.
  intros H1 Hin.
  destruct (files w (template_path w option)) as [template|] eqn:H2.
  2:{ rewrite (process_no_template _ H1 H2) in Hin. not_in_trace Hin. }
  destruct (Z.eq_dec (status_code (query_nr_number w nr_number)) HTTPStatus_OK)
    as [H3|H3].
  2:{ rewrite (process_not_ok _ _ H1 H2 H3) in Hin. not_in_trace Hin. }
  rewrite (process_status_ok _ _ H1 H2 H3) in Hin.
  destruct (render_context _ _ _ _ _) as [c|e]; [|not_in_trace Hin].
  cbn [trace_of fst] in Hin.
  fold (trace_of (jinja_render w true (substitute_template_parts w template) c))
    in Hin.
  destruct (jinja_render_run w true (substitute_template_parts w template) c)
    as [[e He]|Ht]; [rewrite He in Hin; not_in_trace Hin|].
  rewrite Ht in Hin.
  skip_events Hin. destruct Hin as [Hin|[]].
  inversion Hin; subst. repeat split; eauto.
Qed.

(** Once the variables are computed, the trace is the prelude and, if
    the template could be built, the call of [render]. *)
Lemma process_status_ok_trace nr_number template context :
  subscript email_info "identifier" = Ok nr_number ->
  files w (template_path w option) = Some template ->
  status_code (query_nr_number w nr_number) = HTTPStatus_OK ->
  render_context w email_info option nr_number
    (json (query_nr_number w nr_number)) = Ok context ->
  trace_of (process w email_info option) =
    (prelude w email_info option template nr_number
       ++ trace_of (jinja_render w true
                      (substitute_template_parts w template) context))%list.
Proof.
  intros H1 H2 H3 H4. now rewrite (process_status_ok _ _ H1 H2 H3), H4.
Qed.

End Run.

(** ** The registry answers with a status other than OK *)

(** C1: when the identifier is there and the template file of the
    option exists, a registry status other than OK makes [process] log
    one error record and return the empty mapping; nothing is raised,
    whatever the other inputs are. *)
Theorem non_ok_status_returns_empty_mapping
    w email_info option nr_number template :
  subscript email_info "identifier" = Ok nr_number ->
  files w (template_path w option) = Some template ->
  status_code (query_nr_number w nr_number) <> HTTPStatus_OK ->
  outcome (process w email_info option) = Ok empty_dict /\
  trace_of (process w email_info option) =
    (prelude w email_info option template nr_number
       ++ [error_event nr_number])%list /\
  filter is_error_log (trace_of (process w email_info option)) =
    [error_event nr_number].
Proof.
  intros H1 H2 H3.
  rewrite (process_not_ok w email_info option nr_number template H1 H2 H3).
  repeat split.
Qed.

Lemma non_ok_status_returns_empty_mapping_witness :
  outcome (process Sample.registry_down Sample.email_info "renewal")
    = Ok empty_dict /\
  trace_of (process Sample.registry_down Sample.email_info "renewal") =
    (prelude Sample.registry_down Sample.email_info "renewal"
       Sample.template Sample.nr_number
       ++ [error_event Sample.nr_number])%list /\
  filter is_error_log
    (trace_of (process Sample.registry_down Sample.email_info "renewal")) =
    [error_event Sample.nr_number].
Proof.
  apply (non_ok_status_returns_empty_mapping
           Sample.registry_down Sample.email_info "renewal"
           Sample.nr_number Sample.template).
  - reflexivity.
  - reflexivity.
  - vm_compute. lia.
Defined.

(** ** The template file is missing *)

(** C8: when the template file of the option is absent, [process]
    raises; with an identifier in the request the exception is the
    [FileNotFoundError] of the read, handed on to the caller.  No run
    turns the missing file into a returned mapping. *)
Theorem missing_template_is_raised w email_info option :
  files w (template_path w option) = None ->
  is_raise (outcome (process w email_info option)) = true /\
  (forall nr_number,
     subscript email_info "identifier" = Ok nr_number ->
     outcome (process w email_info option) =
       Raise (FileNotFoundError (template_path w option))).
Proof.
  intros H2. split.
  - destruct (subscript email_info "identifier") as [nr_number|e] eqn:H1.
    + now rewrite (process_no_template w email_info option nr_number H1 H2).
    + now rewrite (process_no_identifier w email_info option e H1).
  - intros nr_number H1.
    now rewrite (process_no_template w email_info option nr_number H1 H2).
Qed.

Lemma missing_template_is_raised_witness :
  is_raise (outcome (process (Sample.no_template (Sample.ok Sample.acme))
                       Sample.email_info "renewal")) = true /\
  outcome (process (Sample.no_template (Sample.ok Sample.acme))
             Sample.email_info "renewal") =
    Raise (FileNotFoundError "/opt/templates/NR-RENEWAL.html").
Proof.
  destruct (missing_template_is_raised
              (Sample.no_template (Sample.ok Sample.acme))
              Sample.email_info "renewal" eq_refl) as [H1 H2].
  split; [exact H1|]. apply (H2 Sample.nr_number). reflexivity.
Defined.

(** C10: the template is read and its parts substituted before the
    registry is asked.  With the template file absent [process] raises
    and never queries the registry, whatever status the registry would
    have answered; and a run that returns the empty mapping has read
    the template, substituted its parts and only then queried. *)
Theorem template_comes_before_registry w email_info option :
  (files w (template_path w option) = None ->
   is_raise (outcome (process w email_info option)) = true /\
   existsb is_query (trace_of (process w email_info option)) = false)
  /\
  (outcome (process w email_info option) = Ok empty_dict ->
   exists nr_number template rest,
     files w (template_path w option) = Some template /\
     trace_of (process w email_info option) =
       ([ debug_event email_info option;
          ReadText (template_path w option);
          SubstituteParts template;
          QueryNr nr_number ] ++ rest)%list).
Proof.
  split.
  - intros H2.
    destruct (subscript email_info "identifier") as [nr_number|e] eqn:H1.
    + now rewrite (process_no_template w email_info option nr_number H1 H2).
    + now rewrite (process_no_identifier w email_info option e H1).
  - intros H.
    destruct (process_outcome_inv w email_info option empty_dict H)
      as (nr_number & template & _ & H2 &
          [(_ & Ht & _)|(_ & c & h & _ & _ & Ht & _)]).
    + exists nr_number, template, [error_event nr_number].
      split; [exact H2|exact Ht].
    + exists nr_number, template,
        [Render true (substitute_template_parts w template) c].
      split; [exact H2|exact Ht].
Qed.

Lemma template_comes_before_registry_witness :
  (is_raise (outcome (process (Sample.no_template Sample.not_found)
                        Sample.email_info "renewal")) = true /\
   existsb is_query
     (trace_of (process (Sample.no_template Sample.not_found)
                  Sample.email_info "renewal")) = false)
  /\
  (exists nr_number template rest,
     files Sample.registry_down
       (template_path Sample.registry_down "renewal") = Some template /\
     trace_of (process Sample.registry_down Sample.email_info "renewal") =
       ([ debug_event Sample.email_info "renewal";
          ReadText (template_path Sample.registry_down "renewal");
          SubstituteParts template;
          QueryNr nr_number ] ++ rest)%list)
  /\
  (exists nr_number template rest,
     files (Sample.registry_ok Sample.null_recipients)
       (template_path (Sample.registry_ok Sample.null_recipients) "renewal")
       = Some template /\
     trace_of (process (Sample.registry_ok Sample.null_recipients)
                 Sample.email_info "renewal") =
       ([ debug_event Sample.email_info "renewal";
          ReadText (template_path (Sample.registry_ok Sample.null_recipients)
                      "renewal");
          SubstituteParts template;
          QueryNr nr_number ] ++ rest)%list).
Proof.
  split; [|split].
  - apply (template_comes_before_registry
             (Sample.no_template Sample.not_found) Sample.email_info "renewal").
    reflexivity.
  - apply (template_comes_before_registry
             Sample.registry_down Sample.email_info "renewal").
    reflexivity.
  - apply (template_comes_before_registry
             (Sample.registry_ok Sample.null_recipients)
             Sample.email_info "renewal").
    vm_compute. reflexivity.
Defined.

(** ** The returned payload *)

(** C7: a run that returns a non-empty mapping returns the payload
    whose subject is the identifier, [" - "] and the suffix the subject
    table holds for the option, whose sender is the fixed address,
    whose attachments are the empty list and whose recipients are the
    record's [applicants.emailAddress]. *)
Theorem payload_shape w email_info option p :
  outcome (process w email_info option) = Ok p ->
  truthy p = true ->
  exists nr_number applicants recipients suffix body,
    subscript email_info "identifier" = Ok nr_number /\
    subscript (json (query_nr_number w nr_number)) "applicants"
      = Ok applicants /\
    subscript applicants "emailAddress" = Ok recipients /\
    lookup option subjects = Some suffix /\
    p = VDict
          [ ("recipients", recipients);
            ("requestBy", VStr "BCRegistries@gov.bc.ca");
            ("content",
             VDict [ ("subject", VStr (py_str w nr_number ++ " - " ++ suffix));
                     ("body", VStr body);
                     ("attachments", VList []) ]) ].
Proof.
  intros H Hp.
  destruct (process_outcome_inv w email_info option p H)
    as (nr_number & template & H1 & _ &
        [(_ & _ & ->)|(_ & c & h & _ & _ & _ & Hk)]).
  - discriminate Hp.
  - destruct (package_inv w option nr_number _ h p Hk)
      as (a & r & Ha & Hr & [(_ & ->)|(_ & s & Hs & ->)]).
    + discriminate Hp.
    + exists nr_number, a, r, s, h. repeat split; assumption.
Qed.

Lemma payload_shape_witness :
  outcome (process (Sample.registry_ok Sample.acme)
             Sample.email_info "renewal") =
    Ok (VDict
          [ ("recipients", VStr "owner@acme.example");
            ("requestBy", VStr "BCRegistries@gov.bc.ca");
            ("content",
             VDict [ ("subject", VStr "NR 1234567 - Confirmation of Renewal");
                     ("body", VStr Sample.acme_body);
                     ("attachments", VList []) ]) ]) /\
  exists nr_number applicants recipients suffix body,
    subscript Sample.email_info "identifier" = Ok nr_number /\
    subscript (json (query_nr_number (Sample.registry_ok Sample.acme)
                       nr_number)) "applicants" = Ok applicants /\
    subscript applicants "emailAddress" = Ok recipients /\
    lookup "renewal" subjects = Some suffix /\
    payload (VStr "owner@acme.example")
      "NR 1234567 - Confirmation of Renewal" Sample.acme_body =
    VDict
      [ ("recipients", recipients);
        ("requestBy", VStr "BCRegistries@gov.bc.ca");
        ("content",
         VDict [ ("subject",
                  VStr (py_str (Sample.registry_ok Sample.acme) nr_number
                        ++ " - " ++ suffix));
                 ("body", VStr body);
                 ("attachments", VList []) ]) ].
Proof.
  split; [vm_compute; reflexivity|].
  apply (payload_shape (Sample.registry_ok Sample.acme)
           Sample.email_info "renewal").
  - vm_compute. reflexivity.
  - reflexivity.
Defined.

(** ** Option, template file and subject *)

Lemma subjects_keys option suffix :
  lookup option subjects = Some suffix ->
  exists o, option = Option_value o /\ In (option, suffix) subjects.
Proof.
  unfold subjects. cbn [lookup]. intros H.
  repeat match type of H with
         | (if String.eqb ?a ?b then _ else _) = _ =>
             destruct (String.eqb_spec a b) as [->|_];
             [inversion H; subst; clear H|]
         end;
    try discriminate.
  - exists BEFORE_EXPIRY. cbn. auto.
  - exists EXPIRED. cbn. auto.
  - exists RENEWAL. cbn. auto.
  - exists UPGRADE. cbn. auto 6.
  - exists REFUND. cbn. auto 7.
Qed.

Lemma upper_Option_value_inj o o' :
  upper (Option_value o) = upper (Option_value o') -> o = o'.
Proof. destruct o, o'; cbn; intros H; (reflexivity || discriminate H). Qed.

(** C2, as the code has it: the template file is chosen by the
    upper-cased option, so every spelling of an option of the
    enumeration reads the file [NR-<OPTION IN UPPER CASE>.html]; the
    subject table is keyed by the exact lower-case value, so a run with
    that value that returns a payload uses the table's suffix for it,
    and a run with another spelling never returns a payload. *)
Theorem option_selects_template_and_subject
    w email_info (o : Option) nr_number :
  subscript email_info "identifier" = Ok nr_number ->
  (forall option,
     upper option = upper (Option_value o) ->
     In (ReadText (py_str w (config w "TEMPLATE_PATH")
                   ++ "/NR-" ++ upper (Option_value o) ++ ".html"))
        (trace_of (process w email_info option)))
  /\
  (exists suffix,
     In (Option_value o, suffix) subjects /\
     forall p,
       outcome (process w email_info (Option_value o)) = Ok p ->
       truthy p = true ->
       exists recipients body,
         p = payload recipients (py_str w nr_number ++ " - " ++ suffix) body)
  /\
  (forall option,
     upper option = upper (Option_value o) ->
     option <> Option_value o ->
     subjects_get option = Raise (KeyError (VStr option)) /\
     forall p,
       outcome (process w email_info option) = Ok p -> p = empty_dict).
Proof.
  intros H1. split; [|split].
  - intros option Hu.
    destruct (process_reads_template w email_info option nr_number H1)
      as [rest ->].
    unfold template_path. rewrite Hu. right. left. reflexivity.
  - assert (exists suffix, lookup (Option_value o) subjects = Some suffix)
      as [suffix Hs] by (destruct o; cbn; eauto).
    exists suffix. split.
    + destruct (subjects_keys _ _ Hs) as (_ & _ & Hin). exact Hin.
    + intros p H Hp.
      destruct (process_payload_inv w email_info (Option_value o) p H Hp)
        as (nr & a & r & s & body & H1' & _ & _ & Hs' & ->).
      rewrite H1 in H1'. inversion H1'; subst nr.
      rewrite Hs in Hs'. inversion Hs'; subst s.
      exists r, body. reflexivity.
  - intros option Hu Hne.
    assert (lookup option subjects = None) as Hnone.
    { destruct (lookup option subjects) as [s|] eqn:Hs; [|reflexivity].
      destruct (subjects_keys _ _ Hs) as (o' & -> & _).
      apply upper_Option_value_inj in Hu. now subst o'. }
    split; [unfold subjects_get; now rewrite Hnone|].
    intros p H. destruct (truthy p) eqn:Hp.
    + destruct (process_payload_inv w email_info option p H Hp)
        as (_ & _ & _ & s & _ & _ & _ & _ & Hs & _).
      rewrite Hnone in Hs. discriminate Hs.
    + destruct (process_outcome_inv w email_info option p H)
        as (nr & template & _ & _ &
            [(_ & _ & ->)|(_ & c & h & _ & _ & _ & Hk)]);
        [reflexivity|].
      destruct (package_inv w option nr _ h p Hk)
        as (a & r & _ & _ & [(_ & ->)|(_ & s & _ & ->)]);
        [reflexivity|discriminate Hp].
Qed.

Lemma option_selects_template_and_subject_witness :
  (forall option,
     upper option = upper (Option_value RENEWAL) ->
     In (ReadText
           (py_str (Sample.registry_ok Sample.acme)
              (config (Sample.registry_ok Sample.acme) "TEMPLATE_PATH")
            ++ "/NR-" ++ upper (Option_value RENEWAL) ++ ".html"))
        (trace_of (process (Sample.registry_ok Sample.acme)
                     Sample.email_info option)))
  /\
  (exists suffix,
     In (Option_value RENEWAL, suffix) subjects /\
     forall p,
       outcome (process (Sample.registry_ok Sample.acme)
                  Sample.email_info (Option_value RENEWAL)) = Ok p ->
       truthy p = true ->
       exists recipients body,
         p = payload recipients
               (py_str (Sample.registry_ok Sample.acme) Sample.nr_number
                ++ " - " ++ suffix) body)
  /\
  (forall option,
     upper option = upper (Option_value RENEWAL) ->
     option <> Option_value RENEWAL ->
     subjects_get option = Raise (KeyError (VStr option)) /\
     forall p,
       outcome (process (Sample.registry_ok Sample.acme)
                  Sample.email_info option) = Ok p ->
       p = empty_dict).
Proof.
  apply (option_selects_template_and_subject
           (Sample.registry_ok Sample.acme) Sample.email_info RENEWAL
           Sample.nr_number).
  reflexivity.
Defined.

(** C2 fails for an option that is not in lower case: [RENEWAL] reads
    the same template file as [renewal], and where [renewal] returns
    the payload with the subject of the table, [RENEWAL] ends in the
    [KeyError] of the subject lookup. *)
Lemma upper_case_option_has_no_subject :
  upper "RENEWAL" = upper (Option_value RENEWAL) /\
  In (ReadText "/opt/templates/NR-RENEWAL.html")
     (trace_of (process (Sample.registry_ok Sample.acme)
                  Sample.email_info "RENEWAL")) /\
  outcome (process (Sample.registry_ok Sample.acme)
             Sample.email_info "RENEWAL") =
    Raise (KeyError (VStr "RENEWAL")) /\
  outcome (process (Sample.registry_ok Sample.acme)
             Sample.email_info "renewal") =
    Ok (payload (VStr "owner@acme.example")
          "NR 1234567 - Confirmation of Renewal" Sample.acme_body).
Proof.
  split; [reflexivity|]. split; [|split].
  - vm_compute. right. left. reflexivity.
  - vm_compute. reflexivity.
  - vm_compute. reflexivity.
Qed.

(** ** Recipients *)



(** ** The variables handed to the template *)

(** *** The legal name *)

Lemma legal_name_loop_first_approved items :
  forallb is_name_entry items = true ->
  legal_name_loop items = Ok (first_approved_name items).
Proof.
  induction items as [|n_item rest IH]; [reflexivity|].
  cbn [forallb]. intros H. apply andb_true_iff in H as [Hn Hrest].
  unfold first_approved_name. cbn [legal_name_loop find].
  unfold is_name_entry in Hn. unfold state_is_approved, rbind.
  destruct (subscript n_item "state") as [state|]; [|discriminate].
  destruct (subscript n_item "name") as [name|] eqn:Hname; [|discriminate].
  destruct (eq_str state "APPROVED" || eq_str state "CONDITION").
  - now rewrite Hname.
  - exact (IH Hrest).
Qed.

(** C4: for a record whose [names] is a list of name entries, the
    legal name is the name of the first entry, in the order of the
    list, whose state is APPROVED or CONDITION, and the empty string
    when no entry has such a state; this is the value bound to
    [legal_name] in the context [process] renders with. *)
Theorem legal_name_is_first_approved_name nr_data items :
  subscript nr_data "names" = Ok (VList items) ->
  forallb is_name_entry items = true ->
  legal_name_of nr_data = Ok (first_approved_name items) /\
  (forall w email_info option nr_number b source context,
     subscript email_info "identifier" = Ok nr_number ->
     json (query_nr_number w nr_number) = nr_data ->
     In (Render b source context) (trace_of (process w email_info option)) ->
     lookup "legal_name" context = Some (first_approved_name items)).
Proof.
  intros Hnames Hitems.
  assert (legal_name_of nr_data = Ok (first_approved_name items)) as Hl.
  { unfold legal_name_of, rbind. rewrite Hnames. cbn [py_iter].
    now apply legal_name_loop_first_approved. }
  split; [exact Hl|].
  intros w email_info option nr_number b source context H1 Hj Hin.
  destruct (process_render_inv w email_info option nr_number b source context
              H1 Hin) as (_ & _ & _ & Hc).
  rewrite Hj in Hc.
  destruct (render_context_inv w email_info option nr_number nr_data context Hc)
    as (e & r & l & c & u & _ & _ & Hl' & _ & _ & ->).
  rewrite Hl in Hl'. inversion Hl'. reflexivity.
Qed.

Lemma legal_name_is_first_approved_name_witness :
  legal_name_of (Sample.record Sample.two_names Sample.owner)
    = Ok (VStr "B") /\
  legal_name_of
    (Sample.record [Sample.name_entry "A" "REJECTED"] Sample.owner)
    = Ok (VStr "") /\
  (forall b source context,
     In (Render b source context)
        (trace_of (process
                     (Sample.registry_ok
                        (Sample.record Sample.two_names Sample.owner))
                     Sample.email_info "renewal")) ->
     lookup "legal_name" context = Some (VStr "B")).
Proof.
  destruct (legal_name_is_first_approved_name
              (Sample.record Sample.two_names Sample.owner) Sample.two_names
              eq_refl eq_refl) as [Htwo Hrender].
  destruct (legal_name_is_first_approved_name
              (Sample.record [Sample.name_entry "A" "REJECTED"] Sample.owner)
              [Sample.name_entry "A" "REJECTED"] eq_refl eq_refl)
    as [Hnone _].
  split; [exact Htwo|]. split; [exact Hnone|].
  intros b source context.
  apply (Hrender (Sample.registry_ok
                    (Sample.record Sample.two_names Sample.owner))
           Sample.email_info "renewal" Sample.nr_number);
    reflexivity.
Defined.

(** *** The refund value *)

Lemma refund_value_other_option email_info option :
  option <> Option_value REFUND ->
  refund_value_of email_info option = Ok (VStr "").
Proof.
  intros H. unfold refund_value_of.
  apply String.eqb_neq in H. now rewrite H.
Qed.

(** C5: the refund value is read from the request only for the option
    [refund]: there it is [data.request.refundValue] when the request
    has it and [None] when a key on the way is missing.  For every
    other option the variable is the empty string and renders as
    nothing, whatever the request holds. *)
Theorem refund_value_only_for_refund email_info :
  (forall option,
     option <> Option_value REFUND ->
     refund_value_of email_info option = Ok (VStr "") /\
     forall w nr_number b source context,
       subscript email_info "identifier" = Ok nr_number ->
       In (Render b source context) (trace_of (process w email_info option)) ->
       lookup "refund_value" context = Some (VStr "") /\
       render_node w b context (TVar "refund_value") = Some EmptyString)
  /\
  (forall v,
     path_lookup email_info refund_path = Some v ->
     refund_value_of email_info (Option_value REFUND) = Ok v)
  /\
  (key_missing email_info refund_path = true ->
   refund_value_of email_info (Option_value REFUND) = Ok VNone)
  /\
  (forall w nr_number b source context,
     subscript email_info "identifier" = Ok nr_number ->
     In (Render b source context)
        (trace_of (process w email_info (Option_value REFUND))) ->
     exists v,
       refund_value_of email_info (Option_value REFUND) = Ok v /\
       lookup "refund_value" context = Some v).
Proof.
  split; [|split; [|split]].
  - intros option Hne. split; [now apply refund_value_other_option|].
    intros w nr_number b source context H1 Hin.
    destruct (process_render_inv w email_info option nr_number b source
                context H1 Hin) as (-> & _ & _ & Hc).
    destruct (render_context_inv w email_info option nr_number _ context Hc)
      as (e & r & l & c & u & _ & Hr & _ & _ & _ & ->).
    rewrite (refund_value_other_option email_info option Hne) in Hr.
    inversion Hr. split; reflexivity.
  - intros v. unfold refund_value_of, refund_path. cbn.
    destruct email_info as [| | | |?|d]; try discriminate.
    cbn. destruct (lookup "data" d) as [[| | | |?|dd]|]; try discriminate.
    cbn. destruct (lookup "request" dd) as [[| | | |?|rq]|]; try discriminate.
    cbn. destruct (lookup "refundValue" rq); [|discriminate].
    now intros [= ->].
  - unfold refund_value_of, refund_path. cbn.
    destruct email_info as [| | | |?|d]; try discriminate.
    cbn. destruct (lookup "data" d) as [[| | | |?|dd]|];
      try discriminate; [|reflexivity].
    cbn. destruct (lookup "request" dd) as [[| | | |?|rq]|];
      try discriminate; [|reflexivity].
    cbn. destruct (lookup "refundValue" rq); [discriminate|reflexivity].
  - intros w nr_number b source context H1 Hin.
    destruct (process_render_inv w email_info (Option_value REFUND) nr_number
                b source context H1 Hin) as (_ & _ & _ & Hc).
    destruct (render_context_inv w email_info (Option_value REFUND) nr_number
                _ context Hc)
      as (e & r & l & c & u & _ & Hr & _ & _ & _ & ->).
    exists r. split; [exact Hr|reflexivity].
Qed.

Lemma refund_value_only_for_refund_witness :
  refund_value_of Sample.refund_info "renewal" = Ok (VStr "") /\
  refund_value_of Sample.refund_info "REFUND" = Ok (VStr "") /\
  refund_value_of Sample.refund_info "refund" = Ok (VStr "31.50") /\
  refund_value_of Sample.email_info "refund" = Ok VNone /\
  (forall b source context,
     In (Render b source context)
        (trace_of (process (Sample.registry_ok Sample.acme)
                     Sample.refund_info "renewal")) ->
     lookup "refund_value" context = Some (VStr "") /\
     render_node (Sample.registry_ok Sample.acme) b context
       (TVar "refund_value") = Some EmptyString).
Proof.
  destruct (refund_value_only_for_refund Sample.refund_info)
    as (Hother & Hpresent & _ & _).
  destruct (refund_value_only_for_refund Sample.email_info)
    as (_ & _ & Hmissing & _).
  split; [|split; [|split; [|split]]].
  - apply (Hother "renewal"). discriminate.
  - apply (Hother "REFUND"). discriminate.
  - apply (Hpresent (VStr "31.50")). reflexivity.
  - apply Hmissing. reflexivity.
  - intros b source context.
    assert ("renewal" <> Option_value REFUND) as Hne by discriminate.
    destruct (Hother "renewal" Hne) as [_ Hrender].
    apply (Hrender (Sample.registry_ok Sample.acme) Sample.nr_number).
    reflexivity.
Defined.

(** *** The expiration date *)



(** ** Escaping *)







Lemma strip_prefix_app p s r : strip_prefix p s = Some r -> s = p ++ r.
Proof.
  revert s. induction p as [|a p IH]; intros s H; cbn in H.
  - now inversion H.
  - destruct s as [|b s]; [discriminate H|].
    destruct (Ascii.eqb_spec a b) as [->|_]; [|discriminate H].
    cbn. f_equal. now apply IH.
Qed.

Lemma decode_entity_inv s x r :
  decode_entity entities s = Some (x, r) ->
  exists name, In (name, x) entities /\ s = name ++ r.
Proof.
  unfold entities. cbn [decode_entity]. intros H.
  destruct (strip_prefix "amp;" s) as [r'|] eqn:E1;
    [|destruct (strip_prefix "lt;" s) as [r'|] eqn:E2;
      [|destruct (strip_prefix "gt;" s) as [r'|] eqn:E3;
        [|destruct (strip_prefix "#39;" s) as [r'|] eqn:E4;
          [|destruct (strip_prefix "#34;" s) as [r'|] eqn:E5;
            [|discriminate H]]]]];
    inversion H; subst;
    match goal with
    | E : strip_prefix ?n s = Some r |- _ =>
        apply strip_prefix_app in E; exists n; split; [cbn; auto 10|exact E]
    end.
Qed.

Lemma string_length_app (a b : string) :
  String.length (a ++ b) = (String.length a + String.length b)%nat.
Proof. induction a as [|c a IH]; cbn; [reflexivity|now rewrite IH]. Qed.

(** Escaped text is determined by what it shows: a segment that is
    character data is the escaping of the text it decodes to. *)
Lemma well_escaped_exact segment :
  well_escaped segment = true ->
  html_escape (html_unescape segment) = segment.
Proof.
  remember (String.length segment) as n eqn:Hn.
  assert (String.length segment <= n)%nat as Hle by lia. clear Hn.
  revert segment Hle.
  induction n as [|n IH]; intros [|c rest] Hle Hw; try reflexivity.
  - cbn in Hle. lia.
  - cbn [well_escaped] in Hw. apply andb_true_iff in Hw as [Hc Hrest].
    cbn [String.length] in Hle.
    destruct (Ascii.eqb_spec c "&") as [->|Hamp].
    + destruct (decode_entity entities rest) as [[x r]|] eqn:Hd;
        [|discriminate Hc].
      destruct (decode_entity_inv rest x r Hd) as (name & Hin & ->).
      rewrite string_length_app in Hle.
      cbn in Hin.
      repeat (destruct Hin as [Hin|Hin];
              [inversion Hin; subst name x; clear Hin;
               cbn in Hrest |- *;
               rewrite (IH r) by (try assumption; cbn in Hle; lia);
               reflexivity|]).
      contradiction Hin.
    + cbn [html_unescape].
      destruct (Ascii.eqb_spec c "&") as [->|_]; [now destruct Hamp|].
      cbn [html_escape]. rewrite (IH rest) by (try assumption; lia).
      unfold escape_char.
      apply negb_true_iff in Hc. unfold is_markup_char in Hc.
      destruct (Ascii.eqb_spec c "&") as [->|_]; [now destruct Hamp|].
      apply orb_false_iff in Hc as [Hc E5].
      apply orb_false_iff in Hc as [Hc E4].
      apply orb_false_iff in Hc as [E2 E3].
      now rewrite E2, E3, E4, E5.
Qed.







(** * Further properties *)

(** ** [get_url] *)

Ltac pick_member := repeat (first [left; reflexivity | right]).

Ltac split_code code :=
  repeat match goal with
         | |- context [String.eqb code ?k] =>
             destruct (String.eqb_spec code k) as [->|_]
         end.

(** X1: for a string, [get_url] never raises: it answers one of the
    four settings it reads, one of the three descriptions of the
    table, or [None]. *)
Theorem get_url_answers w code :
  exists answer,
    get_url w (VStr code) = Ok answer /\ In answer (url_answers w).
Proof.
  unfold get_url, url_answers. cbn [lookup]. split_code code.
  all: eexists; split; [reflexivity|]; pick_member.
Qed.

(** X2: a code that is not a key of the table resolves to [None],
    not to an error; so does a value that is no string but can be a
    key (null, a boolean, a number). *)
Theorem get_url_unknown_code w code :
  ~ In code entity_type_codes ->
  get_url w (VStr code) = Ok VNone /\
  get_url w VNone = Ok VNone /\
  (forall b, get_url w (VBool b) = Ok VNone) /\
  (forall z, get_url w (VInt z) = Ok VNone).
Proof.
  intros H. split; [|repeat split].
  unfold get_url. cbn [lookup]. split_code code.
  all: try solve [exfalso; apply H; unfold entity_type_codes; pick_member].
  reflexivity.
Qed.

Lemma get_url_unknown_code_witness :
  get_url (Sample.registry_ok Sample.acme) (VStr "bc") = Ok VNone /\
  get_url (Sample.registry_ok Sample.acme) VNone = Ok VNone /\
  (forall b, get_url (Sample.registry_ok Sample.acme) (VBool b) = Ok VNone) /\
  (forall z, get_url (Sample.registry_ok Sample.acme) (VInt z) = Ok VNone).
Proof.
  apply (get_url_unknown_code (Sample.registry_ok Sample.acme) "bc").
  unfold entity_type_codes. cbn.
  intros H.
  repeat (destruct H as [H|H]; [discriminate H|]). exact H.
Defined.

(** X3: [get_url] reads the configuration through four keys only
    (the corporate-online address under the key COLIN_URL): two
    configurations that agree on them give the same answer for every
    value. *)
Theorem get_url_reads_four_settings w1 w2 entity_type_cd :
  (forall key, In key url_settings -> config w1 key = config w2 key) ->
  get_url w1 entity_type_cd = get_url w2 entity_type_cd.
Proof.
  intros H. unfold get_url.
  rewrite (H "DECIDE_BUSINESS_URL"), (H "CORP_FORMS_URL"),
    (H "BUSINESS_URL"), (H "COLIN_URL");
    try (unfold url_settings; pick_member).
  reflexivity.
Qed.

Lemma get_url_reads_four_settings_witness :
  config (Sample.registry_ok Sample.acme) "TEMPLATE_PATH"
    <> config (Sample.moved Sample.not_found) "TEMPLATE_PATH" /\
  get_url (Sample.registry_ok Sample.acme) (VStr "BC") =
  get_url (Sample.moved Sample.not_found) (VStr "BC").
Proof.
  split; [discriminate|].
  apply (get_url_reads_four_settings
           (Sample.registry_ok Sample.acme)
           (Sample.moved Sample.not_found) (VStr "BC")).
  intros key H. unfold url_settings in H.
  repeat (destruct H as [<-|H]; [reflexivity|]). contradiction H.
Defined.

(** X4: the entity types the table describes in words (SO, PA, FI,
    PAR, XCP, XSO) resolve to a text that no configuration changes. *)
Theorem get_url_descriptions_are_fixed code :
  In code described_codes ->
  exists text,
    forall w, get_url w (VStr code) = Ok (VStr text).
Proof.
  unfold described_codes. cbn [In]. intros H.
  repeat (destruct H as [<-|H]; [eexists; intros w; reflexivity|]).
  contradiction H.
Qed.

Lemma get_url_descriptions_are_fixed_witness :
  exists text,
    forall w, get_url w (VStr "XCP") = Ok (VStr text).
Proof.
  apply (get_url_descriptions_are_fixed "XCP").
  unfold described_codes. pick_member.
Defined.

(** ** [process]: what a run does and in which order *)

Ltac in_trace H :=
  cbn in H;
  repeat (destruct H as [H|H];
          [first [discriminate H
                 | inversion H; subst; first [reflexivity | assumption]]|]);
  contradiction H.

(** The shapes a trace can have. *)
Lemma process_trace_shape w email_info option :
  trace_of (process w email_info option) = [debug_event email_info option]
  \/
  (exists nr_number,
     subscript email_info "identifier" = Ok nr_number /\
     (trace_of (process w email_info option) =
        [debug_event email_info option; ReadText (template_path w option)]
      \/
      exists template,
        files w (template_path w option) = Some template /\
        (trace_of (process w email_info option) =
           (prelude w email_info option template nr_number
              ++ [error_event nr_number])%list
         \/
         trace_of (process w email_info option) =
           prelude w email_info option template nr_number
         \/
         exists context,
           trace_of (process w email_info option) =
             (prelude w email_info option template nr_number
                ++ [Render true (substitute_template_parts w template)
                      context])%list))).
Proof.
  destruct (subscript email_info "identifier") as [nr_number|e] eqn:H1.
  2:{ left. now rewrite (process_no_identifier w email_info option e H1). }
  right. exists nr_number. split; [reflexivity|].
  destruct (files w (template_path w option)) as [template|] eqn:H2.
  2:{ left. now rewrite (process_no_template w email_info option _ H1 H2). }
  right. exists template. split; [reflexivity|].
  destruct (Z.eq_dec (status_code (query_nr_number w nr_number)) HTTPStatus_OK)
    as [H3|H3].
  - rewrite (process_status_ok w email_info option _ _ H1 H2 H3).
    destruct (render_context _ _ _ _ _) as [context|e].
    + cbn [trace_of fst].
      fold (trace_of (jinja_render w true
                        (substitute_template_parts w template) context)).
      destruct (jinja_render_run w true (substitute_template_parts w template)
                  context) as [[e He]|Ht].
      * right. left. rewrite He. cbn [trace_of fst]. apply app_nil_r.
      * right. right. exists context. now rewrite Ht.
    + right. left. reflexivity.
  - left. now rewrite (process_not_ok w email_info option _ _ H1 H2 H3).
Qed.

(** X5: a request without an identifier stops [process] at once: the
    [KeyError] is raised after the debug record, before any file is
    read and before the registry is asked. *)
Theorem missing_identifier_raises_first w entries option :
  lookup "identifier" entries = None ->
  process w (VDict entries) option =
    ([debug_event (VDict entries) option],
     Raise (KeyError (VStr "identifier"))).
Proof.
  intros H. apply process_no_identifier. cbn. now rewrite H.
Qed.

Lemma missing_identifier_raises_first_witness :
  process (Sample.registry_ok Sample.acme)
    (VDict [("data", VDict [])]) "renewal" =
    ([debug_event (VDict [("data", VDict [])]) "renewal"],
     Raise (KeyError (VStr "identifier"))).
Proof.
  apply (missing_identifier_raises_first
           (Sample.registry_ok Sample.acme) [("data", VDict [])] "renewal").
  reflexivity.
Defined.

(** X6: an error record is written only for a registry status other
    than OK: a run whose trace holds one has that status, names the
    identifier in the record and returns the empty mapping.  The exit
    for empty recipients writes none. *)
Theorem error_is_logged_only_for_non_ok_status
    w email_info option fmt args :
  In (Log ERROR fmt args) (trace_of (process w email_info option)) ->
  exists nr_number,
    subscript email_info "identifier" = Ok nr_number /\
    status_code (query_nr_number w nr_number) <> HTTPStatus_OK /\
    args = [nr_number] /\
    outcome (process w email_info option) = Ok empty_dict.
Proof.
  intros Hin.
  destruct (subscript email_info "identifier") as [nr_number|e] eqn:H1.
  2:{ rewrite (process_no_identifier w email_info option e H1) in Hin.
      not_in_trace Hin. }
  exists nr_number. split; [reflexivity|].
  destruct (files w (template_path w option)) as [template|] eqn:H2.
  2:{ rewrite (process_no_template w email_info option _ H1 H2) in Hin.
      not_in_trace Hin. }
  destruct (Z.eq_dec (status_code (query_nr_number w nr_number)) HTTPStatus_OK)
    as [H3|H3].
  - destruct (render_context w email_info option nr_number
                (json (query_nr_number w nr_number))) as [context|e] eqn:H4.
    + rewrite (process_status_ok_trace w email_info option _ _ _ H1 H2 H3 H4)
        in Hin.
      destruct (jinja_render_run w true (substitute_template_parts w template)
                  context) as [[e He]|Ht];
        [rewrite He in Hin|rewrite Ht in Hin]; not_in_trace Hin.
    + rewrite (process_status_ok w email_info option _ _ H1 H2 H3), H4 in Hin.
      not_in_trace Hin.
  - split; [exact H3|].
    rewrite (process_not_ok w email_info option _ _ H1 H2 H3) in Hin |- *.
    split; [|reflexivity].
    skip_events Hin. destruct Hin as [Hin|[]]. now inversion Hin.
Qed.

Lemma error_is_logged_only_for_non_ok_status_witness :
  exists nr_number,
    subscript Sample.email_info "identifier" = Ok nr_number /\
    status_code (query_nr_number Sample.registry_down nr_number)
      <> HTTPStatus_OK /\
    [Sample.nr_number] = [nr_number] /\
    outcome (process Sample.registry_down Sample.email_info "renewal")
      = Ok empty_dict.
Proof.
  apply (error_is_logged_only_for_non_ok_status
           Sample.registry_down Sample.email_info "renewal"
           "Failed to get nr info for name request: %s" [Sample.nr_number]).
  vm_compute. pick_member.
Defined.

(** X7: in every run, raising or not, [process] asks the registry at
    most once, and for the identifier of the request, and it calls
    [render] at most once, on a template built with autoescape on. *)
Theorem registry_and_render_are_called_at_most_once w email_info option :
  (length (filter is_query (trace_of (process w email_info option))) <= 1)%nat /\
  (length (filter is_render (trace_of (process w email_info option))) <= 1)%nat /\
  (forall nr_number,
     In (QueryNr nr_number) (trace_of (process w email_info option)) ->
     subscript email_info "identifier" = Ok nr_number) /\
  (forall b source context,
     In (Render b source context) (trace_of (process w email_info option)) ->
     b = true).
Proof.
  destruct (process_trace_shape w email_info option)
    as [->|(nr & H1 & [->|(tpl & H2 & [->|[->|(c & ->)]])])];
    cbn; (split; [lia|]); (split; [lia|]);
    (split; [intros nr_number Hin|intros b source context Hin]);
    in_trace Hin.
Qed.

(** ** [process]: errors after the registry has answered *)

(** X8: once the registry has answered OK, an exception raised while
    the template variables are computed (a missing or malformed field
    of the record, a malformed request) is handed on to the caller,
    and nothing is rendered and no error record is written. *)
Theorem variable_errors_propagate
    w email_info option nr_number template e :
  subscript email_info "identifier" = Ok nr_number ->
  files w (template_path w option) = Some template ->
  status_code (query_nr_number w nr_number) = HTTPStatus_OK ->
  render_context w email_info option nr_number
    (json (query_nr_number w nr_number)) = Raise e ->
  outcome (process w email_info option) = Raise e /\
  existsb is_render (trace_of (process w email_info option)) = false /\
  existsb is_error_log (trace_of (process w email_info option)) = false.
Proof.
  intros H1 H2 H3 H4.
  rewrite (process_status_ok w email_info option _ _ H1 H2 H3), H4.
  repeat split.
Qed.

Lemma variable_errors_propagate_witness :
  outcome (process (Sample.registry_ok Sample.no_expiration_key)
             Sample.email_info "renewal")
    = Raise (KeyError (VStr "expirationDate")) /\
  existsb is_render
    (trace_of (process (Sample.registry_ok Sample.no_expiration_key)
                 Sample.email_info "renewal")) = false /\
  existsb is_error_log
    (trace_of (process (Sample.registry_ok Sample.no_expiration_key)
                 Sample.email_info "renewal")) = false.
Proof.
  apply (variable_errors_propagate
           (Sample.registry_ok Sample.no_expiration_key)
           Sample.email_info "renewal" Sample.nr_number Sample.template);
    reflexivity.
Defined.

(** X9: the template is rendered before the recipients are looked
    at.  Once the variables are computed, an exception of the
    rendering is handed on to the caller whatever the recipients are,
    and when it comes from building the template [render] is not
    called at all; and for a record without recipients the template is
    rendered all the same, and the rendering dropped. *)
Theorem rendering_precedes_recipients
    w email_info option nr_number template context :
  subscript email_info "identifier" = Ok nr_number ->
  files w (template_path w option) = Some template ->
  status_code (query_nr_number w nr_number) = HTTPStatus_OK ->
  render_context w email_info option nr_number
    (json (query_nr_number w nr_number)) = Ok context ->
  (forall e,
     outcome (jinja_render w true (substitute_template_parts w template)
                context) = Raise e ->
     outcome (process w email_info option) = Raise e)
  /\
  (forall e,
     jinja_compile w true (substitute_template_parts w template) = Raise e ->
     jinja_fragment w true (substitute_template_parts w template) context
       = None ->
     process w email_info option =
       (prelude w email_info option template nr_number, Raise e))
  /\
  (forall html_out applicants recipients,
     outcome (jinja_render w true (substitute_template_parts w template)
                context) = Ok html_out ->
     subscript (json (query_nr_number w nr_number)) "applicants"
       = Ok applicants ->
     subscript applicants "emailAddress" = Ok recipients ->
     truthy recipients = false ->
     process w email_info option =
       ((prelude w email_info option template nr_number
           ++ [Render true (substitute_template_parts w template) context])%list,
        Ok empty_dict)).
Proof.
  intros H1 H2 H3 H4.
  rewrite (process_status_ok w email_info option _ _ H1 H2 H3), H4.
  split; [|split].
  - intros e He. unfold outcome at 1. cbn [snd]. now rewrite He.
  - intros e He Hf. unfold jinja_render, lift, bind. rewrite Hf, He.
    reflexivity.
  - intros html_out applicants recipients H5 H6 H7 H8.
    rewrite (jinja_render_ok w true _ context html_out H5), H5.
    unfold package, rbind. now rewrite H6, H7, H8.
Qed.

Lemma rendering_precedes_recipients_witness :
  process (Sample.world (Some Sample.block_template)
             (Sample.ok Sample.null_recipients))
    Sample.email_info "renewal" =
    (prelude (Sample.world (Some Sample.block_template)
                (Sample.ok Sample.null_recipients))
       Sample.email_info "renewal" Sample.block_template Sample.nr_number,
     Raise (OtherError "TemplateSyntaxError")) /\
  process (Sample.registry_ok Sample.null_recipients)
    Sample.email_info "renewal" =
    ((prelude (Sample.registry_ok Sample.null_recipients)
        Sample.email_info "renewal" Sample.template Sample.nr_number
        ++ [Render true Sample.template Sample.acme_context])%list,
     Ok empty_dict).
Proof.
  destruct (rendering_precedes_recipients
              (Sample.world (Some Sample.block_template)
                 (Sample.ok Sample.null_recipients))
              Sample.email_info "renewal" Sample.nr_number
              Sample.block_template Sample.acme_context
              eq_refl eq_refl eq_refl eq_refl) as (_ & Hbuild & _).
  destruct (rendering_precedes_recipients
              (Sample.registry_ok Sample.null_recipients)
              Sample.email_info "renewal" Sample.nr_number Sample.template
              Sample.acme_context eq_refl eq_refl eq_refl eq_refl)
    as (_ & _ & Hdrop).
  split.
  - apply (Hbuild (OtherError "TemplateSyntaxError")); reflexivity.
  - apply (Hdrop Sample.acme_body (VDict [("emailAddress", VNone)]) VNone);
      reflexivity.
Defined.

(** X10: the subject is looked up last.  For an option that is not a
    value of the enumeration no run returns a payload: with recipients
    the run ends in the [KeyError] of the subject table, and without
    recipients it returns the empty mapping, the option unnoticed. *)
Theorem unknown_option_has_no_payload w email_info option :
  (forall o, option <> Option_value o) ->
  (forall p, outcome (process w email_info option) = Ok p -> p = empty_dict)
  /\
  (forall nr_number template context html_out applicants recipients,
     subscript email_info "identifier" = Ok nr_number ->
     files w (template_path w option) = Some template ->
     status_code (query_nr_number w nr_number) = HTTPStatus_OK ->
     render_context w email_info option nr_number
       (json (query_nr_number w nr_number)) = Ok context ->
     outcome (jinja_render w true (substitute_template_parts w template)
                context) = Ok html_out ->
     subscript (json (query_nr_number w nr_number)) "applicants"
       = Ok applicants ->
     subscript applicants "emailAddress" = Ok recipients ->
     outcome (process w email_info option) =
       if truthy recipients then Raise (KeyError (VStr option))
       else Ok empty_dict).
Proof.
  intros Hunknown.
  assert (lookup option subjects = None) as Hnone.
  { destruct (lookup option subjects) as [s|] eqn:Hs; [|reflexivity].
    destruct (subjects_keys _ _ Hs) as (o & Ho & _).
    now destruct (Hunknown o). }
  split.
  - intros p H. destruct (truthy p) eqn:Hp.
    + destruct (process_payload_inv w email_info option p H Hp)
        as (_ & _ & _ & s & _ & _ & _ & _ & Hs & _).
      rewrite Hnone in Hs. discriminate Hs.
    + destruct (process_outcome_inv w email_info option p H)
        as (nr & template & _ & _ &
            [(_ & _ & ->)|(_ & c & h & _ & _ & _ & Hk)]);
        [reflexivity|].
      destruct (package_inv w option nr _ h p Hk)
        as (a & r & _ & _ & [(_ & ->)|(_ & s & _ & ->)]);
        [reflexivity|discriminate Hp].
  - intros nr_number template context html_out applicants recipients
      H1 H2 H3 H4 H5 H6 H7.
    rewrite (process_status_ok w email_info option _ _ H1 H2 H3), H4.
    unfold outcome at 1. cbn [snd]. rewrite H5.
    unfold package, rbind, subjects_get. rewrite H6, H7, Hnone.
    now destruct (truthy recipients).
Qed.

Lemma unknown_option_has_no_payload_witness :
  outcome (process (Sample.any_template (Sample.ok Sample.acme))
             Sample.email_info "cancelled")
    = Raise (KeyError (VStr "cancelled")) /\
  outcome (process (Sample.any_template (Sample.ok Sample.null_recipients))
             Sample.email_info "cancelled")
    = Ok empty_dict.
Proof.
  assert (forall o, "cancelled" <> Option_value o) as Hunknown
    by (intros o; destruct o; discriminate).
  destruct (unknown_option_has_no_payload
              (Sample.any_template (Sample.ok Sample.acme))
              Sample.email_info "cancelled" Hunknown) as [_ Hacme].
  destruct (unknown_option_has_no_payload
              (Sample.any_template (Sample.ok Sample.null_recipients))
              Sample.email_info "cancelled" Hunknown) as [_ Hnull].
  split.
  - apply (Hacme Sample.nr_number Sample.template Sample.acme_context
             Sample.acme_body Sample.owner (VStr "owner@acme.example"));
      reflexivity.
  - apply (Hnull Sample.nr_number Sample.template Sample.acme_context
             Sample.acme_body (VDict [("emailAddress", VNone)]) VNone);
      reflexivity.
Defined.

(** X11: the success path.  When the identifier and the template are
    there, the registry answers OK, the variables are computed, the
    template renders, the record has recipients and the option has a
    subject, [process] returns the payload and its trace is the four
    calls of the prelude and the rendering, without any error
    record. *)
Theorem process_returns_payload
    w email_info option nr_number template context html_out
    applicants recipients subject :
  subscript email_info "identifier" = Ok nr_number ->
  files w (template_path w option) = Some template ->
  status_code (query_nr_number w nr_number) = HTTPStatus_OK ->
  render_context w email_info option nr_number
    (json (query_nr_number w nr_number)) = Ok context ->
  outcome (jinja_render w true (substitute_template_parts w template) context)
    = Ok html_out ->
  subscript (json (query_nr_number w nr_number)) "applicants"
    = Ok applicants ->
  subscript applicants "emailAddress" = Ok recipients ->
  truthy recipients = true ->
  lookup option subjects = Some subject ->
  process w email_info option =
    ([ debug_event email_info option;
       ReadText (template_path w option);
       SubstituteParts template;
       QueryNr nr_number;
       Render true (substitute_template_parts w template) context ],
     Ok (payload recipients (py_str w nr_number ++ " - " ++ subject)
           html_out)).
Proof.
  intros H1 H2 H3 H4 H5 H6 H7 H8 H9.
  rewrite (process_status_ok w email_info option _ _ H1 H2 H3), H4.
  rewrite (jinja_render_ok w true _ context html_out H5), H5.
  unfold package, rbind, subjects_get. now rewrite H6, H7, H8, H9.
Qed.

Lemma process_returns_payload_witness :
  process (Sample.registry_ok Sample.acme) Sample.email_info "renewal" =
    ([ debug_event Sample.email_info "renewal";
       ReadText "/opt/templates/NR-RENEWAL.html";
       SubstituteParts Sample.template;
       QueryNr Sample.nr_number;
       Render true Sample.template Sample.acme_context ],
     Ok (payload (VStr "owner@acme.example")
           "NR 1234567 - Confirmation of Renewal" Sample.acme_body)).
Proof.
  apply (process_returns_payload
           (Sample.registry_ok Sample.acme) Sample.email_info "renewal"
           Sample.nr_number Sample.template Sample.acme_context
           Sample.acme_body Sample.owner (VStr "owner@acme.example")
           "Confirmation of Renewal");
    reflexivity.
Defined.

(** X12: an [expirationDate] that is a non-empty string
    [fromisoformat] does not read ends the run in [ValueError], and a
    true value that is no string in [TypeError]; neither is caught,
    and nothing is rendered. *)
Theorem malformed_expiration_date_raises
    w email_info option nr_number template raw :
  subscript email_info "identifier" = Ok nr_number ->
  files w (template_path w option) = Some template ->
  status_code (query_nr_number w nr_number) = HTTPStatus_OK ->
  subscript (json (query_nr_number w nr_number)) "expirationDate" = Ok raw ->
  truthy raw = true ->
  (forall s d, raw = VStr s -> fromisoformat w s <> Some d) ->
  outcome (process w email_info option) =
    Raise (match raw with VStr _ => ValueError | _ => TypeError end) /\
  existsb is_render (trace_of (process w email_info option)) = false.
Proof.
  intros H1 H2 H3 H4 H5 H6.
  assert (render_context w email_info option nr_number
            (json (query_nr_number w nr_number)) =
          Raise (match raw with VStr _ => ValueError | _ => TypeError end))
    as Hc.
  { unfold render_context, expiration_date_of, rbind. rewrite H4, H5.
    destruct raw as [| | |s| |]; cbn [py_fromisoformat]; try reflexivity.
    destruct (fromisoformat w s) as [d|] eqn:Hd; [|reflexivity].
    now destruct (H6 s d eq_refl). }
  rewrite (process_status_ok w email_info option _ _ H1 H2 H3), Hc.
  split; reflexivity.
Qed.

Lemma malformed_expiration_date_raises_witness :
  outcome (process (Sample.registry_ok Sample.bad_date)
             Sample.email_info "renewal") = Raise ValueError /\
  existsb is_render
    (trace_of (process (Sample.registry_ok Sample.bad_date)
                 Sample.email_info "renewal")) = false.
Proof.
  apply (malformed_expiration_date_raises
           (Sample.registry_ok Sample.bad_date) Sample.email_info "renewal"
           Sample.nr_number Sample.template (VStr "tomorrow"));
    try reflexivity.
  intros s d Hs. inversion Hs. subst s. discriminate.
Defined.

(** ** The legal name: the loop and its [break] *)

Lemma legal_name_loop_passes_over before rest :
  forallb is_passed_over before = true ->
  legal_name_loop (before ++ rest) = legal_name_loop rest.
Proof.
  induction before as [|n_item before IH]; [reflexivity|].
  cbn [forallb app legal_name_loop]. intros H.
  apply andb_true_iff in H as [Hn Hbefore].
  unfold is_passed_over in Hn. unfold rbind.
  destruct (subscript n_item "state") as [state|]; [|discriminate].
  apply negb_true_iff in Hn. rewrite Hn. exact (IH Hbefore).
Qed.

(** X13: the loop stops at the first entry whose state is APPROVED or
    CONDITION: the legal name is its name, and the entries after it
    are never looked at, whatever they are. *)
Theorem legal_name_stops_at_first_match nr_data before n_item after name :
  subscript nr_data "names" = Ok (VList (before ++ n_item :: after)) ->
  forallb is_passed_over before = true ->
  state_is_approved n_item = true ->
  subscript n_item "name" = Ok name ->
  legal_name_of nr_data = Ok name.
Proof.
  intros Hnames Hbefore Hstate Hname.
  unfold legal_name_of, rbind. rewrite Hnames. cbn [py_iter].
  rewrite (legal_name_loop_passes_over before (n_item :: after) Hbefore).
  cbn [legal_name_loop]. unfold rbind. unfold state_is_approved in Hstate.
  destruct (subscript n_item "state") as [state|]; [|discriminate].
  now rewrite Hstate.
Qed.

Lemma legal_name_stops_at_first_match_witness :
  legal_name_of
    (VDict [("names",
             VList [ Sample.name_entry "A" "REJECTED";
                     Sample.name_entry "B" "CONDITION";
                     VNone;
                     Sample.name_entry "C" "APPROVED" ])])
    = Ok (VStr "B").
Proof.
  apply (legal_name_stops_at_first_match
           (VDict [("names",
                    VList [ Sample.name_entry "A" "REJECTED";
                            Sample.name_entry "B" "CONDITION";
                            VNone;
                            Sample.name_entry "C" "APPROVED" ])])
           [Sample.name_entry "A" "REJECTED"]
           (Sample.name_entry "B" "CONDITION")
           [VNone; Sample.name_entry "C" "APPROVED"]);
    reflexivity.
Defined.

(** X14: an entry the loop reaches must be well formed: when the
    entries before it are passed over, an entry whose state cannot be
    read, or whose state matches and whose name cannot be read, makes
    the computation raise that exception, even if a later entry would
    match. *)
Theorem malformed_name_entry_raises nr_data before n_item after e :
  subscript nr_data "names" = Ok (VList (before ++ n_item :: after)) ->
  forallb is_passed_over before = true ->
  subscript n_item "state" = Raise e \/
  (state_is_approved n_item = true /\ subscript n_item "name" = Raise e) ->
  legal_name_of nr_data = Raise e.
Proof.
  intros Hnames Hbefore Hbad.
  unfold legal_name_of, rbind. rewrite Hnames. cbn [py_iter].
  rewrite (legal_name_loop_passes_over before (n_item :: after) Hbefore).
  cbn [legal_name_loop]. unfold rbind.
  destruct Hbad as [Hstate|[Hstate Hname]].
  - now rewrite Hstate.
  - unfold state_is_approved in Hstate.
    destruct (subscript n_item "state") as [state|]; [|discriminate].
    now rewrite Hstate.
Qed.

Lemma malformed_name_entry_raises_witness :
  legal_name_of
    (VDict [("names",
             VList [ Sample.name_entry "A" "REJECTED";
                     VDict [("name", VStr "B")];
                     Sample.name_entry "C" "APPROVED" ])])
    = Raise (KeyError (VStr "state")) /\
  legal_name_of
    (VDict [("names",
             VList [ VDict [("state", VStr "APPROVED")];
                     Sample.name_entry "C" "APPROVED" ])])
    = Raise (KeyError (VStr "name")).
Proof.
  split.
  - apply (malformed_name_entry_raises
             (VDict [("names",
                      VList [ Sample.name_entry "A" "REJECTED";
                              VDict [("name", VStr "B")];
                              Sample.name_entry "C" "APPROVED" ])])
             [Sample.name_entry "A" "REJECTED"]
             (VDict [("name", VStr "B")])
             [Sample.name_entry "C" "APPROVED"]);
      [reflexivity|reflexivity|left; reflexivity].
  - apply (malformed_name_entry_raises
             (VDict [("names",
                      VList [ VDict [("state", VStr "APPROVED")];
                              Sample.name_entry "C" "APPROVED" ])])
             []
             (VDict [("state", VStr "APPROVED")])
             [Sample.name_entry "C" "APPROVED"]);
      [reflexivity|reflexivity|right; split; reflexivity].
Defined.

(** ** The rendering context *)

(** X15: the template is rendered with exactly six variables, in the
    order of the source: [nr_number] is the identifier of the request,
    [name_request_url] is what [get_url] answers for the record's
    [entity_type_cd], and [decide_business_url] is the setting
    DECIDE_BUSINESS_URL, whatever the entity type is. *)
Theorem context_binds_six_variables
    w email_info option nr_number b source context :
  subscript email_info "identifier" = Ok nr_number ->
  In (Render b source context) (trace_of (process w email_info option)) ->
  map fst context = context_names /\
  lookup "nr_number" context = Some nr_number /\
  lookup "decide_business_url" context
    = Some (config w "DECIDE_BUSINESS_URL") /\
  exists entity_type_cd url,
    subscript (json (query_nr_number w nr_number)) "entity_type_cd"
      = Ok entity_type_cd /\
    get_url w entity_type_cd = Ok url /\
    lookup "name_request_url" context = Some url.
Proof.
  intros H1 Hin.
  destruct (process_render_inv w email_info option nr_number b source context
              H1 Hin) as (_ & _ & _ & Hc).
  destruct (render_context_inv w email_info option nr_number _ context Hc)
    as (e & r & l & c & u & _ & _ & _ & Hcode & Hu & ->).
  repeat split. exists c, u. repeat split; assumption.
Qed.

Lemma context_binds_six_variables_witness :
  map fst Sample.acme_context = context_names /\
  lookup "nr_number" Sample.acme_context = Some Sample.nr_number /\
  lookup "decide_business_url" Sample.acme_context
    = Some (config (Sample.registry_ok Sample.acme) "DECIDE_BUSINESS_URL") /\
  exists entity_type_cd url,
    subscript (json (query_nr_number (Sample.registry_ok Sample.acme)
                       Sample.nr_number)) "entity_type_cd"
      = Ok entity_type_cd /\
    get_url (Sample.registry_ok Sample.acme) entity_type_cd = Ok url /\
    lookup "name_request_url" Sample.acme_context = Some url.
Proof.
  apply (context_binds_six_variables
           (Sample.registry_ok Sample.acme) Sample.email_info "renewal"
           Sample.nr_number true Sample.template Sample.acme_context).
  - reflexivity.
  - vm_compute. pick_member.
Defined.

(** ** Options and subjects *)

(** X16: the subject table has an entry for exactly the five values
    of the enumeration: the lookup succeeds for a string if and only
    if the string is the value of an option. *)
Theorem subjects_cover_exactly_the_options option :
  (exists subject, subjects_get option = Ok subject) <->
  (exists o, option = Option_value o).
Proof.
  unfold subjects_get. split.
  - intros [subject H].
    destruct (lookup option subjects) as [s|] eqn:Hs; [|discriminate].
    destruct (subjects_keys _ _ Hs) as (o & Ho & _). now exists o.
  - intros [o ->]. destruct o; cbn; eauto.
Qed.

(** ** The refund value of a malformed request *)

(** X18: for the option [refund] a request whose [data], or whose
    [data.request], is there and is no mapping (null, a string, a
    list) makes the refund value, and with it [process], raise
    [AttributeError]; for every other option the same request is
    harmless. *)
Theorem refund_of_malformed_request_raises entries data :
  lookup "data" entries = Some data ->
  is_mapping data = false \/
  (exists request,
     subscript data "request" = Ok request /\ is_mapping request = false) ->
  refund_value_of (VDict entries) (Option_value REFUND)
    = Raise AttributeError /\
  (forall option,
     option <> Option_value REFUND ->
     refund_value_of (VDict entries) option = Ok (VStr "")) /\
  (forall w nr_number template expiration_date,
     lookup "identifier" entries = Some nr_number ->
     files w (template_path w (Option_value REFUND)) = Some template ->
     status_code (query_nr_number w nr_number) = HTTPStatus_OK ->
     expiration_date_of w (json (query_nr_number w nr_number))
       = Ok expiration_date ->
     outcome (process w (VDict entries) (Option_value REFUND))
       = Raise AttributeError).
Proof.
  intros Hdata Hbad.
  assert (refund_value_of (VDict entries) (Option_value REFUND)
          = Raise AttributeError) as Hr.
  { unfold refund_value_of, rbind. cbn. rewrite Hdata.
    destruct Hbad as [Hd|(request & Hreq & Hr)].
    - now destruct data.
    - destruct data as [| | | | |d]; try discriminate Hreq.
      cbn in Hreq |- *. destruct (lookup "request" d); [|discriminate].
      inversion Hreq. subst. now destruct request. }
  split; [exact Hr|]. split.
  - intros option Hne. now apply refund_value_other_option.
  - intros w nr_number template expiration_date H1 H2 H3 H4.
    assert (subscript (VDict entries) "identifier" = Ok nr_number) as H1'
      by (cbn; now rewrite H1).
    rewrite (process_status_ok w (VDict entries) _ _ _ H1' H2 H3).
    unfold render_context, rbind. now rewrite H4, Hr.
Qed.

Lemma refund_of_malformed_request_raises_witness :
  refund_value_of
    (VDict [("identifier", Sample.nr_number); ("data", VNone)]) "refund"
    = Raise AttributeError /\
  refund_value_of
    (VDict [("identifier", Sample.nr_number); ("data", VNone)]) "renewal"
    = Ok (VStr "") /\
  outcome (process (Sample.any_template (Sample.ok Sample.acme))
             (VDict [("identifier", Sample.nr_number); ("data", VNone)])
             "refund")
    = Raise AttributeError /\
  refund_value_of
    (VDict [("data", VDict [("request", VStr "none")])]) "refund"
    = Raise AttributeError.
Proof.
  destruct (refund_of_malformed_request_raises
              [("identifier", Sample.nr_number); ("data", VNone)] VNone
              eq_refl (or_introl eq_refl))
    as (Hrefund & Hother & Hprocess).
  destruct (refund_of_malformed_request_raises
              [("data", VDict [("request", VStr "none")])]
              (VDict [("request", VStr "none")]) eq_refl
              (or_intror (ex_intro _ (VStr "none") (conj eq_refl eq_refl))))
    as (Hrequest & _ & _).
  split; [exact Hrefund|]. split; [apply Hother; discriminate|].
  split; [|exact Hrequest].
  apply (Hprocess (Sample.any_template (Sample.ok Sample.acme))
           Sample.nr_number Sample.template
           (VStr "April 30, 2023 at 5:00 pm Pacific time"));
    reflexivity.
Defined.
